(** * masspayout: the request builder and the provider client

    A shallow embedding of [app.py] and [mass.py].  Python [str] values are
    [string]s whose characters are read as the code points U+0000..U+00FF,
    and [bytes] values are [string]s of bytes; the values of [json] are a
    type of their own, with [dict]s as finite maps; Python exceptions are
    values of [exn] carried by the [result] monad, and code that sends
    requests, draws random identifiers or touches the session runs in the
    [IO] monad over a [world]; Python floats are IEEE binary64 numbers in the
    representation of [SpecFloat], with [float(str)] and the [.2f] format
    computed exactly. *)

From Stdlib Require Import ZArith NArith Ascii String List Bool Lia.
From Stdlib Require Import DecimalString DecimalN SpecFloat.
From stdpp Require Import base option list strings gmap.

Local Open Scope Z_scope.

(** ** Exceptions and the error monad *)

Inductive exn : Type :=
| ValueError (msg : string)
| TypeError (msg : string)
| AttributeError (msg : string)
| UnicodeDecodeError (msg : string)
| JSONDecodeError (msg : string)
| URLError (reason : string)
| HTTPError (code : Z) (msg : string) (body : string)
| RuntimeError (msg : string)
| Chained (e : exn) (cause : exn).

Inductive result (A : Type) : Type :=
| Ok (a : A)
| Raise (e : exn).
Arguments Ok {A} a.
Arguments Raise {A} e.

#[export] Instance result_ret : MRet result := λ A a, Ok a.
#[export] Instance result_bind : MBind result := λ A B k m,
  match m with
  | Ok a => k a
  | Raise e => Raise e
  end.

(** [try: m except Exception as e: h e] *)
Definition try_except {A} (m : result A) (h : exn → result A) : result A :=
  match m with
  | Ok a => Ok a
  | Raise e => h e
  end.

(** ** Strings *)

Module Str.

Definition nl : ascii := ascii_of_nat 10.
Definition cr : ascii := ascii_of_nat 13.

(** [str.isspace] on a single character, for code points below 256:
    TAB..CR, FS..US, SPACE, NEL and NBSP. *)
Definition isspace (c : ascii) : bool :=
  let n := Z.of_nat (nat_of_ascii c) in
  ((9 <=? n) && (n <=? 13)) || ((28 <=? n) && (n <=? 32))
  || (n =? 133) || (n =? 160).

Definition isdigit (c : ascii) : bool :=
  let n := Z.of_nat (nat_of_ascii c) in (48 <=? n) && (n <=? 57).

Definition digit_val (c : ascii) : Z := Z.of_nat (nat_of_ascii c) - 48.

Definition nonempty (s : string) : bool :=
  match s with EmptyString => false | String _ _ => true end.

(** [s.replace(a, b)] for one-character [a] and [b]. *)
Fixpoint replace (a b : ascii) (s : string) : string :=
  match s with
  | EmptyString => EmptyString
  | String c s' => String (if Ascii.eqb c a then b else c) (replace a b s')
  end.

(** [s.split(sep)] for a one-character separator: empty pieces are kept,
    and the empty string splits into one empty piece. *)
Fixpoint split (sep : ascii) (s : string) : list string :=
  match s with
  | EmptyString => [EmptyString]
  | String c s' =>
      if Ascii.eqb c sep then EmptyString :: split sep s'
      else match split sep s' with
           | piece :: rest => String c piece :: rest
           | [] => [String c EmptyString]
           end
  end.

Fixpoint lstrip_with (space : ascii → bool) (s : string) : string :=
  match s with
  | EmptyString => EmptyString
  | String c s' => if space c then lstrip_with space s' else s
  end.

Fixpoint rstrip_with (space : ascii → bool) (s : string) : string :=
  match s with
  | EmptyString => EmptyString
  | String c s' =>
      let r := rstrip_with space s' in
      if space c && negb (nonempty r) then EmptyString else String c r
  end.

(** [s.strip()] *)
Definition strip (s : string) : string := rstrip_with isspace (lstrip_with isspace s).

Fixpoint all (p : ascii → bool) (s : string) : bool :=
  match s with
  | EmptyString => true
  | String c s' => p c && all p s'
  end.

(** [str(n)] for a natural number. *)
Definition of_N (n : N) : string := NilEmpty.string_of_uint (N.to_uint n).

(** [str(z)] for an integer. *)
Definition of_Z (z : Z) : string :=
  if z <? 0 then String "-" (of_N (Z.to_N (- z))) else of_N (Z.to_N z).

Fixpoint zeros (n : nat) : string :=
  match n with
  | O => EmptyString
  | S n' => String "0" (zeros n')
  end.

(** Left padding with ['0'] up to a minimum width, the [0w] of a format
    specification: longer strings are left as they are. *)
Definition zfill (width : nat) (s : string) : string :=
  zeros (width - String.length s) +:+ s.

(** ASCII lower-casing, as the C library does it. *)
Definition lower (c : ascii) : ascii :=
  let n := nat_of_ascii c in
  if ((65 <=? Z.of_nat n) && (Z.of_nat n <=? 90)) then ascii_of_nat (n + 32) else c.

Fixpoint lowers (s : string) : string :=
  match s with
  | EmptyString => EmptyString
  | String c s' => String (lower c) (lowers s')
  end.

Definition upper (c : ascii) : ascii :=
  let n := nat_of_ascii c in
  if ((97 <=? Z.of_nat n) && (Z.of_nat n <=? 122)) then ascii_of_nat (n - 32) else c.

(** [s.capitalize()] on ASCII text, for header names. *)
Definition capitalize (s : string) : string :=
  match s with
  | EmptyString => EmptyString
  | String c s' => String (upper c) (lowers s')
  end.

End Str.

(** ** Floats: [float(str)], comparison with zero, and [format(x, ".2f")] *)

Module Float.

Definition prec : Z := 53.
Definition emax : Z := 1024.

(** The integer nearest to [n / d] for [0 < d], ties going to the even one. *)
Definition round_half_even (n d : Z) : Z :=
  let q := n / d in
  match (2 * (n mod d)) ?= d with
  | Lt => q
  | Gt => q + 1
  | Eq => if Z.even q then q else q + 1
  end.

(** Does [n / d >= 2^k] hold?  ([0 < d]) *)
Definition ge_pow2 (n d k : Z) : bool :=
  if 0 <=? k then d * 2 ^ k <=? n else d <=? n * 2 ^ (- k).

(** The binary64 number nearest to [n / d] ([0 <= n], [0 < d]), ties to
    even; overflow gives an infinity and underflow a zero. *)
Definition of_ratio (neg : bool) (n d : Z) : spec_float :=
  if n =? 0 then S754_zero neg else
  let k0 := Z.log2 n - Z.log2 d in
  let k := if ge_pow2 n d k0 then k0 else k0 - 1 in
  let e := Z.max (k - (prec - 1)) (3 - emax - prec) in
  let q := if 0 <=? e then round_half_even n (d * 2 ^ e)
           else round_half_even (n * 2 ^ (- e)) d in
  let '(q, e) := if q =? 2 ^ prec then (2 ^ (prec - 1), e + 1) else (q, e) in
  if q =? 0 then S754_zero neg
  else if emax - prec <? e then S754_infinity neg
  else S754_finite neg (Z.to_pos q) e.

(** *** The grammar of [float(str)] *)

(** Underscores may stand between two digits and nowhere else; they are
    dropped before the number is read. *)
Fixpoint strip_underscores (prev : option ascii) (s : string) : option string :=
  match s with
  | EmptyString =>
      if bool_decide (prev = Some "_"%char) then None else Some EmptyString
  | String c s' =>
      if Ascii.eqb c "_" then
        match prev with
        | Some p => if Str.isdigit p then strip_underscores (Some c) s' else None
        | None => None
        end
      else if bool_decide (prev = Some "_"%char) && negb (Str.isdigit c) then None
      else String c <$> strip_underscores (Some c) s'
  end.

(** A maximal run of digits: its value when read after [acc], how many
    digits it has, and what follows it. *)
Fixpoint digits (acc : Z) (n : Z) (s : string) : Z * Z * string :=
  match s with
  | String c s' =>
      if Str.isdigit c then digits (10 * acc + Str.digit_val c) (n + 1) s'
      else (acc, n, s)
  | EmptyString => (acc, n, s)
  end.

Definition sign (s : string) : bool * string :=
  match s with
  | String "-" s' => (true, s')
  | String "+" s' => (false, s')
  | _ => (false, s)
  end.

(** The exponent part: [e] or [E], an optional sign and at least one digit.
    A bare exponent is not consumed. *)
Definition exponent (s : string) : Z * string :=
  match s with
  | String c s' =>
      if Ascii.eqb c "e" || Ascii.eqb c "E" then
        let '(neg, s'') := sign s' in
        let '(v, n, rest) := digits 0 0 s'' in
        if n =? 0 then (0, s) else ((if neg then - v else v), rest)
      else (0, s)
  | EmptyString => (0, s)
  end.

(** A decimal number: digits, an optional point and more digits, with at
    least one digit in all, then an optional exponent.  The result is the
    sign, the digits as an integer and the power of ten; [None] when no
    number starts here. *)
Definition decimal (s : string) : option (bool * Z * Z * string) :=
  let '(neg, s1) := sign s in
  let '(ip, n1, s2) := digits 0 0 s1 in
  let '(m, n2, s3) :=
    match s2 with
    | String "." s2' => digits ip 0 s2'
    | _ => (ip, 0, s2)
    end in
  if n1 + n2 =? 0 then None
  else let '(ex, s4) := exponent s3 in Some (neg, m, ex - n2, s4).

(** The binary64 number nearest to [m * 10^ex] ([0 <= m]).  With [n] the
    number of decimal digits of [m], the value is at least [10^(n+ex-1)] and
    below [10^(n+ex)]: from [10^311] on it is beyond the largest finite
    number, and below [10^-330] it is under half the smallest one, so these
    are settled, as the library settles them, before any arithmetic. *)
Definition of_decimal (neg : bool) (m ex : Z) : spec_float :=
  let magnitude := Z.of_nat (String.length (Str.of_N (Z.to_N m))) + ex in
  if m =? 0 then S754_zero neg
  else if 311 <? magnitude then S754_infinity neg
  else if magnitude <? -330 then S754_zero neg
  else if 0 <=? ex then of_ratio neg (m * 10 ^ ex) 1
  else of_ratio neg m (10 ^ (- ex)).

(** [inf], [infinity] and [nan], in any case, with an optional sign. *)
Definition inf_or_nan (s : string) : option spec_float :=
  let '(neg, s1) := sign s in
  let w := Str.lowers s1 in
  if String.eqb w "inf" || String.eqb w "infinity" then Some (S754_infinity neg)
  else if String.eqb w "nan" then Some S754_nan
  else None.

(** The blanks [float] skips at both ends: the white space of C, and the
    two further spaces below 256, which it first turns into [" "]. *)
Definition isspace (c : ascii) : bool :=
  let n := Z.of_nat (nat_of_ascii c) in
  ((9 <=? n) && (n <=? 13)) || (n =? 32) || (n =? 133) || (n =? 160).

(** [float(s)]: [None] stands for the [ValueError] it raises.  Underscores
    are removed, the blanks at both ends are skipped, and the whole of what
    remains must be one number. *)
Definition of_string (s : string) : option spec_float :=
  s ← strip_underscores None s;
  let s := Str.rstrip_with isspace (Str.lstrip_with isspace s) in
  if negb (Str.nonempty s) then None else
  match decimal s with
  | Some (neg, m, ex, EmptyString) => Some (of_decimal neg m ex)
  | Some _ => None
  | None => inf_or_nan s
  end.

Definition zero : spec_float := S754_zero false.

(** [x <= y] *)
Definition leb (x y : spec_float) : bool := SFleb x y.

Definition sign_str (neg : bool) : string := if neg then "-" else "".

(** [format(x, ".2f")]: the exact value rounded to two decimals, ties to
    even. *)
Definition format_2f (x : spec_float) : string :=
  match x with
  | S754_nan => "nan"
  | S754_infinity neg => sign_str neg +:+ "inf"
  | S754_zero neg => sign_str neg +:+ "0.00"
  | S754_finite neg m e =>
      let q := if 0 <=? e then Z.pos m * 2 ^ e * 100
               else round_half_even (Z.pos m * 100) (2 ^ (- e)) in
      sign_str neg +:+ Str.of_N (Z.to_N (q / 100)) +:+ "."
        +:+ Str.zfill 2 (Str.of_N (Z.to_N (q mod 100)))
  end.

End Float.

(** ** Python values

    The values [json.loads] produces and [json.dumps] accepts; [JNull] is
    [None].  A [dict] is a finite map from strings. *)

#[warnings="-register-all"]
Inductive json : Type :=
| JNull
| JBool (b : bool)
| JInt (n : Z)
| JFloat (x : spec_float)
| JStr (s : string)
| JList (l : list json)
| JDict (d : gmap string json).

Module Py.

(** [bool(v)] *)
Definition truthy (v : json) : bool :=
  match v with
  | JNull => false
  | JBool b => b
  | JInt n => negb (n =? 0)
  | JFloat x => negb (SFeqb x Float.zero)
  | JStr s => Str.nonempty s
  | JList l => match l with [] => false | _ => true end
  | JDict d => negb (bool_decide (d = ∅))
  end.

(** [a or b] *)
Definition or (a b : json) : json := if truthy a then a else b.

(** [d.get(k)] and [d.get(k, dflt)] on a dict. *)
Definition get (d : gmap string json) (k : string) : json :=
  default JNull (d !! k).
Definition get_default (d : gmap string json) (k : string) (dflt : json) : json :=
  default dflt (d !! k).

Definition type_name (v : json) : string :=
  match v with
  | JNull => "NoneType"
  | JBool _ => "bool"
  | JInt _ => "int"
  | JFloat _ => "float"
  | JStr _ => "str"
  | JList _ => "list"
  | JDict _ => "dict"
  end.

Definition no_attribute (v : json) (attr : string) : exn :=
  AttributeError ("'" +:+ type_name v +:+ "' object has no attribute '" +:+ attr +:+ "'").

(** [v.get(k)] on any value: only a dict has the method. *)
Definition get_attr_get (v : json) (k : string) : result json :=
  match v with
  | JDict d => Ok (get d k)
  | _ => Raise (no_attribute v "get")
  end.

Fixpoint chars (s : string) : list json :=
  match s with
  | EmptyString => []
  | String c s' => JStr (String c EmptyString) :: chars s'
  end.

(** The elements [for x in v] goes through. *)
Definition iter (v : json) : result (list json) :=
  match v with
  | JList l => Ok l
  | JStr s => Ok (chars s)
  | JDict d => Ok (JStr <$> (map_to_list d).*1)
  | _ => Raise (TypeError ("'" +:+ type_name v +:+ "' object is not iterable"))
  end.

(** [pat in s] on strings. *)
Fixpoint contains (pat s : string) : bool :=
  String.prefix pat s
  || match s with
     | EmptyString => false
     | String _ s' => contains pat s'
     end.

Definition is_str (s : string) (v : json) : bool :=
  match v with JStr s' => String.eqb s s' | _ => false end.

(** [pat in v] for a string [pat] and any value [v]. *)
Definition str_in (pat : string) (v : json) : result bool :=
  match v with
  | JStr s => Ok (contains pat s)
  | JList l => Ok (existsb (is_str pat) l)
  | JDict d => Ok (bool_decide (is_Some (d !! pat)))
  | _ => Raise (TypeError ("argument of type '" +:+ type_name v +:+ "' is not iterable"))
  end.

(** [s.rsplit(sep, 1)]: split once, at the last separator. *)
Fixpoint rsplit1 (sep : ascii) (s : string) : list string :=
  match s with
  | EmptyString => [EmptyString]
  | String c s' =>
      match rsplit1 sep s' with
      | [tail] => if Ascii.eqb c sep then [EmptyString; tail] else [String c tail]
      | head :: rest => String c head :: rest
      | [] => [String c EmptyString]
      end
  end.

(** [v.rsplit(sep, 1)[-1]] on any value: only a string has the method. *)
Definition rsplit1_last (v : json) (sep : ascii) : result json :=
  match v with
  | JStr s => Ok (JStr (default EmptyString (last (rsplit1 sep s))))
  | _ => Raise (no_attribute v "rsplit")
  end.

End Py.

(** ** [uuid.uuid4().hex] *)

Module Uuid.

(** [UUID(bytes=os.urandom(16), version=4).int], [rand] being the sixteen
    random bytes read as a big-endian number. *)
Definition uuid4 (rand : Z) : Z :=
  let i := Z.land rand (Z.lnot (Z.shiftl 0xc000 48)) in
  let i := Z.lor i (Z.shiftl 0x8000 48) in
  let i := Z.land i (Z.lnot (Z.shiftl 0xf000 64)) in
  Z.lor i (Z.shiftl 4 76).

Definition hex_digit (d : Z) : ascii :=
  if d <? 10 then ascii_of_nat (Z.to_nat (48 + d))
  else ascii_of_nat (Z.to_nat (87 + d)).

(** The lowest [n] hexadecimal digits of [v], most significant first. *)
Fixpoint hex_digits (n : nat) (v : Z) : string :=
  match n with
  | O => EmptyString
  | S n' =>
      String (hex_digit (Z.land (Z.shiftr v (4 * Z.of_nat n')) 15)) (hex_digits n' v)
  end.

(** ['%032x' % v] for [0 <= v < 2^128] *)
Definition hex (v : Z) : string := hex_digits 32 v.

(** [s[:n]] *)
Fixpoint take (n : nat) (s : string) : string :=
  match n, s with
  | S n', String c s' => String c (take n' s')
  | _, _ => EmptyString
  end.

End Uuid.

(** ** [app.py]: the request builder *)

(** [parse_amounts]: the loop over the pieces of the text, [values] being
    the list built so far. *)
Fixpoint parse_amounts_loop (pieces : list string) (values : list string)
  : result (list string) :=
  match pieces with
  | [] => Ok values
  | token :: rest =>
      let token := Str.strip token in
      if negb (Str.nonempty token) then parse_amounts_loop rest values
      else
        values ← try_except
          (match Float.of_string token with
           | None => Raise (ValueError "could not convert string to float")
           | Some amt =>
               if Float.leb amt Float.zero
               then Raise (ValueError "Amount must be positive")
               else Ok (values ++ [Float.format_2f amt])
           end)
          (λ _, Raise (ValueError ("Invalid amount: " +:+ token)));
        parse_amounts_loop rest values
  end.

Definition pieces_of (raw : string) : list string :=
  Str.split Str.nl (Str.replace "," Str.nl (Str.replace Str.cr Str.nl raw)).

Definition parse_amounts (raw : string) : result (list string) :=
  values ← parse_amounts_loop (pieces_of raw) [];
  match values with
  | [] => Raise (ValueError "At least one amount is required")
  | _ => Ok values
  end.


(** ** [mass.py]: identifiers *)

(** [_generate_sender_batch_id], [rand] being the randomness [uuid4] draws. *)
Definition _generate_sender_batch_id (rand : Z) : string :=
  "SB-" +:+ Uuid.take 16 (Uuid.hex (Uuid.uuid4 rand)).

(** The loop of [_extract_batch_id] over the links. *)
Fixpoint extract_from_links (links : list json) : result json :=
  match links with
  | [] => Ok JNull
  | link :: rest =>
      href ← Py.get_attr_get link "href";
      found ← (if Py.truthy href return result bool
               then Py.str_in "/v1/payments/payouts/" href else Ok false);
      if found : bool then Py.rsplit1_last href "/" else extract_from_links rest
  end.

Definition links_of (payout_response : gmap string json) : result (list json) :=
  Py.iter (Py.or (Py.get_default payout_response "links" (JList [])) (JList [])).

Definition _extract_batch_id (payout_response : json) : result json :=
  match payout_response with
  | JDict response =>
      let batch_header :=
        Py.or (Py.get response "batch_header") (Py.get response "batchHeader") in
      let from_links := links ← links_of response; extract_from_links links in
      match batch_header with
      | JDict bh =>
          let payout_batch_id :=
            Py.or (Py.get bh "payout_batch_id") (Py.get bh "payoutBatchId") in
          if Py.truthy payout_batch_id then Ok payout_batch_id else from_links
      | _ => from_links
      end
  | _ => Raise (Py.no_attribute payout_response "get")
  end.

(** ** [app.py]: building the payout document *)

Definition payout_item (email currency : string) (idx : N) (amount : string) : json :=
  JDict (<["amount" := JDict (<["value" := JStr amount]> {["currency" := JStr currency]})]>
        (<["sender_item_id" := JStr ("web-" +:+ Str.zfill 3 (Str.of_N idx))]>
        (<["recipient_wallet" := JStr "PAYPAL"]>
        (<["receiver" := JStr email]>
        {["purpose" := JStr "GOODS"]})))).

(** The loop of [build_payout_body]: [idx] is the number [enumerate] gives the
    head of [amounts], [items] the list built so far. *)
Fixpoint build_items (email currency : string) (idx : N) (amounts : list string)
    (items : list json) : list json :=
  match amounts with
  | [] => items
  | amount :: rest =>
      build_items email currency (idx + 1) rest
        (items ++ [payout_item email currency idx amount])
  end.

Definition build_payout_body (rand : Z) (email : string) (amounts : list string)
    (currency subject message : string) : json :=
  let items := build_items email currency 1 amounts [] in
  JDict (<["sender_batch_header" :=
            JDict (<["sender_batch_id" := JStr (_generate_sender_batch_id rand)]>
                  (<["recipient_type" := JStr "EMAIL"]>
                  (<["email_subject" := JStr subject]>
                  {["email_message" := JStr message]})))]>
        {["items" := JList items]}).

(** ** [str.encode("utf-8")] and [base64.b64encode] *)

Module Codec.

(** UTF-8 of a text whose code points are below 256, as a byte string. *)
Fixpoint utf8_encode (s : string) : string :=
  match s with
  | EmptyString => EmptyString
  | String c s' =>
      let n := nat_of_ascii c in
      if (n <? 128)%nat then String c (utf8_encode s')
      else String (ascii_of_nat (192 + n / 64))
             (String (ascii_of_nat (128 + n mod 64)) (utf8_encode s'))
  end.

Definition b64_char (n : Z) : ascii :=
  if n <? 26 then ascii_of_nat (Z.to_nat (65 + n))
  else if n <? 52 then ascii_of_nat (Z.to_nat (97 + (n - 26)))
  else if n <? 62 then ascii_of_nat (Z.to_nat (48 + (n - 52)))
  else if n =? 62 then "+"%char else "/"%char.

Definition byte (c : ascii) : Z := Z.of_nat (nat_of_ascii c).

Fixpoint b64encode (bs : string) : string :=
  match bs with
  | String a (String b (String c rest)) =>
      let n := byte a * 65536 + byte b * 256 + byte c in
      String (b64_char (n / 262144))
        (String (b64_char (n / 4096 mod 64))
          (String (b64_char (n / 64 mod 64))
            (String (b64_char (n mod 64)) (b64encode rest))))
  | String a (String b EmptyString) =>
      let n := byte a * 65536 + byte b * 256 in
      String (b64_char (n / 262144))
        (String (b64_char (n / 4096 mod 64))
          (String (b64_char (n / 64 mod 64)) "="))
  | String a EmptyString =>
      let n := byte a * 65536 in
      String (b64_char (n / 262144)) (String (b64_char (n / 4096 mod 64)) "==")
  | EmptyString => EmptyString
  end.

End Codec.

(** ** The transport and the world a request runs in *)

(** A [urllib.request.Request]: [add_header] capitalizes the name and
    overwrites an earlier value. *)
Record request := Request {
  req_url : string;
  req_data : option string;
  req_method : string;
  req_headers : gmap string string
}.

Definition add_header (key val : string) (r : request) : request :=
  Request (req_url r) (req_data r) (req_method r)
          (<[Str.capitalize key := val]> (req_headers r)).

(** What comes back for a request: no response at all, or a status line and
    a body (bytes). *)
Inductive reply : Type :=
| NoReply (reason : string)
| Reply (status : Z) (reason : string) (body : string).

(** The state a request handler reads and writes: the Flask session, the
    flashed messages, the requests sent so far and how often [os.urandom]
    was read. *)
Record world := World {
  session : gmap string string;
  flashed : list (string * string);
  sent : list request;
  draws : nat
}.

(** Computations that may raise and that change the world; an exception
    keeps the changes made before it. *)
Definition IO (A : Type) : Type := world → result A * world.

#[export] Instance IO_ret : MRet IO := λ A a w, (Ok a, w).
#[export] Instance IO_bind : MBind IO := λ A B k m w,
  match m w with
  | (Ok a, w') => k a w'
  | (Raise e, w') => (Raise e, w')
  end.

Definition raise {A} (e : exn) : IO A := λ w, (Raise e, w).
Definition lift {A} (r : result A) : IO A := λ w, (r, w).

(** [try: m  except Exception as e: h e] *)
Definition io_try {A} (m : IO A) (h : exn → IO A) : IO A := λ w,
  match m w with
  | (Ok a, w') => (Ok a, w')
  | (Raise e, w') => h e w'
  end.

(** [str(e)] *)
Fixpoint exn_str (e : exn) : string :=
  match e with
  | ValueError msg | TypeError msg | AttributeError msg
  | UnicodeDecodeError msg | JSONDecodeError msg | RuntimeError msg => msg
  | URLError reason => "<urlopen error " +:+ reason +:+ ">"
  | HTTPError code msg _ =>
      "HTTP Error " +:+ Str.of_Z code +:+ ": " +:+ msg
  | Chained e _ => exn_str e
  end.

(** A status the transport hands back as a response; any other is raised. *)
Definition is_2xx (status : Z) : bool := (200 <=? status) && (status <? 300).

Definition OAUTH_URL : string := "https://api-m.paypal.com/v1/oauth2/token".
Definition PAYOUTS_URL : string := "https://api-m.paypal.com/v1/payments/payouts".

(** The request [get_access_token] builds. *)
Definition oauth_request (client_id client_secret : string) : request :=
  let data := Codec.utf8_encode "grant_type=client_credentials" in
  let basic_auth :=
    Codec.b64encode (Codec.utf8_encode (client_id +:+ ":" +:+ client_secret)) in
  add_header "Accept-Language" "en_US"
    (add_header "Accept" "application/json"
      (add_header "Content-Type" "application/x-www-form-urlencoded"
        (add_header "Authorization" ("Basic " +:+ basic_auth)
          (Request OAUTH_URL (Some data) "POST" ∅)))).

Section Provider.

(** The remote side and the library functions the client calls, which the
    model takes as given: [net] answers a request; [urandom n] is the n-th
    read of [os.urandom(16)], as a big-endian number; [utf8_decode] is
    [bytes.decode("utf-8")]; [json_loads] is [json.loads];
    [json_dumps indent v] is [json.dumps(v, indent=indent)]; [py_str v] is
    [str(v)], as an f-string renders a value; [str_upper] is [str.upper];
    [environ] is [os.environ]. *)
Variable net : request → reply.
Variable urandom : nat → Z.
Variable utf8_decode : string → result string.
Variable json_loads : string → result json.
Variable json_dumps : option Z → json → string.
Variable py_str : json → string.
Variable str_upper : string → string.
Variable environ : gmap string string.

(** [urllib.request.urlopen(request)] followed by [response.read()]: a
    status outside 200..299 is raised as an [HTTPError].  This is the request
    going out and its answer: the checks [http.client] makes before it sends
    anything (a request target with a blank, a control or a non-ASCII
    character, a header value with a bare line break) are not part of it. *)
Definition urlopen (r : request) : IO string := λ w,
  let w' := World (session w) (flashed w) (sent w ++ [r]) (draws w) in
  match net r with
  | NoReply reason => (Raise (URLError reason), w')
  | Reply status reason body =>
      if is_2xx status then (Ok body, w')
      else (Raise (HTTPError status reason body), w')
  end.

(** [uuid.uuid4().hex] *)
Definition uuid4_hex : IO string := λ w,
  (Ok (Uuid.hex (Uuid.uuid4 (urandom (draws w)))),
   World (session w) (flashed w) (sent w) (S (draws w))).

(** [os.urandom(16)] as a number, for [_generate_sender_batch_id]. *)
Definition draw : IO Z := λ w,
  (Ok (urandom (draws w)), World (session w) (flashed w) (sent w) (S (draws w))).

Definition get_access_token (client_id client_secret : string) : IO json :=
  let request := oauth_request client_id client_secret in
  io_try
    (raw ← urlopen request;
     body ← lift (utf8_decode raw);
     payload ← lift (json_loads body);
     token ← lift (Py.get_attr_get payload "access_token");
     if negb (Py.truthy token)
     then raise (RuntimeError "No access_token in PayPal OAuth response")
     else mret token)
    (λ error,
       raise (Chained
         (RuntimeError ("Failed to obtain PayPal access token: " +:+ exn_str error))
         error)).

Definition create_payout (access_token : json) (payout_payload : json)
    (prefer_async : bool) (request_id : option string) : IO json :=
  let url := if prefer_async then PAYOUTS_URL
             else PAYOUTS_URL +:+ "?sync_mode=true" in
  let request :=
    add_header "Accept" "application/json"
      (add_header "Content-Type" "application/json"
        (add_header "Authorization" ("Bearer " +:+ py_str access_token)
          (Request url (Some (Codec.utf8_encode (json_dumps None payout_payload)))
                   "POST" ∅))) in
  let request :=
    if prefer_async then add_header "Prefer" "respond-async" request else request in
  rid ← match request_id with
        | Some rid => if Str.nonempty rid then mret rid
                      else (h ← uuid4_hex; mret ("req-" +:+ h))
        | None => h ← uuid4_hex; mret ("req-" +:+ h)
        end;
  let request := add_header "PayPal-Request-Id" rid request in
  io_try
    (raw ← urlopen request;
     body ← lift (utf8_decode raw);
     lift (json_loads body))
    (λ error,
       match error with
       | HTTPError code _ raw_body =>
           error_body ← lift (utf8_decode raw_body);
           raise (Chained
             (RuntimeError ("PayPal payout failed: HTTP " +:+ Str.of_Z code
                            +:+ " " +:+ error_body))
             error)
       | _ =>
           raise (Chained
             (RuntimeError ("PayPal payout failed: " +:+ exn_str error)) error)
       end).

(** *** The [/payout] route of [create_app] *)

(** [flash(message, category)] *)
Definition flash (message category : string) : IO unit := λ w,
  (Ok tt, World (session w) (flashed w ++ [(message, category)]) (sent w) (draws w)).

(** [session[key] = val] *)
Definition session_set (key val : string) : IO unit := λ w,
  (Ok tt, World (<[key := val]> (session w)) (flashed w) (sent w) (draws w)).

(** [session.get(key) or os.environ.get(name)]; [None] and the empty string
    are both false. *)
Definition session_or_environ_in (sess : gmap string string) (key name : string)
  : option string :=
  match sess !! key with
  | Some v => if Str.nonempty v then Some v else environ !! name
  | None => environ !! name
  end.

Definition session_or_environ (key name : string) : IO (option string) := λ w,
  (Ok (session_or_environ_in (session w) key name), w).

(** [not v] for an optional string. *)
Definition missing (v : option string) : bool :=
  match v with
  | Some s => negb (Str.nonempty s)
  | None => true
  end.

(** [request.form.get(key, dflt).strip()] *)
Definition form_get (form : gmap string string) (key dflt : string) : string :=
  Str.strip (default dflt (form !! key)).

Definition or_default (s dflt : string) : string :=
  if Str.nonempty s then s else dflt.

(** What a view returns: [redirect(url_for(endpoint, **args))] or
    [render_template(template, **context)]. *)
Inductive response : Type :=
| Redirect (endpoint : string) (args : gmap string json)
| Render (template : string) (context : gmap string json).

Definition default_subject : string := "You have money!".
Definition default_message : string :=
  "You received a payment. Thanks for using our service!".

Definition create_payout_route (form : gmap string string) : IO response :=
  io_try
    (let form_client_id := form_get form "client_id" "" in
     let form_client_secret := form_get form "client_secret" "" in
     _ ← (if Str.nonempty form_client_id && Str.nonempty form_client_secret
          then (_ ← session_set "paypal_client_id" form_client_id;
                session_set "paypal_client_secret" form_client_secret)
          else mret tt);
     client_id ← session_or_environ "paypal_client_id" "PAYPAL_CLIENT_ID";
     client_secret ← session_or_environ "paypal_client_secret" "PAYPAL_CLIENT_SECRET";
     if missing client_id || missing client_secret then
       _ ← flash "Provide PayPal Client ID/Secret in the form or set environment variables."
                 "error";
       mret (Redirect "index" ∅)
     else
       let email := form_get form "email" "" in
       let raw_amounts := form_get form "amounts" "" in
       let currency := or_default (str_upper (form_get form "currency" "USD")) "USD" in
       let subject := or_default (form_get form "subject" default_subject) default_subject in
       let message := or_default (form_get form "message" default_message) default_message in
       if negb (Str.nonempty email) then
         _ ← flash "Recipient email is required" "error";
         mret (Redirect "index" ∅)
       else
         amounts ← lift (parse_amounts raw_amounts);
         rand ← draw;
         let payout_body := build_payout_body rand email amounts currency subject message in
         token ← get_access_token (default "" client_id) (default "" client_secret);
         result ← create_payout token payout_body true None;
         batch_id ← lift (_extract_batch_id result);
         if negb (Py.truthy batch_id) then
           _ ← flash "Payout created but no batch id returned" "warning";
           mret (Render "result.html"
                   (<["result_json" := JStr (json_dumps (Some 2) result)]>
                    {["batch_id" := JNull]}))
         else mret (Redirect "payout_status" {["batch_id" := batch_id]}))
    (λ error,
       _ ← flash (exn_str error) "error";
       mret (Redirect "index" ∅)).

End Provider.

(** * Notions the statements use *)

(** The tokens of a text: its pieces between commas and line ends, stripped,
    the empty ones dropped. *)
Definition tokens_of (pieces : list string) : list string :=
  List.filter Str.nonempty (List.map Str.strip pieces).

Definition tokens (raw : string) : list string := tokens_of (pieces_of raw).

(** What one token contributes: its amount with two decimals, or nothing
    when [float] refuses it or the number is not above zero. *)
Definition amount_of (token : string) : option string :=
  match Float.of_string token with
  | Some amt =>
      if Float.leb amt Float.zero then None else Some (Float.format_2f amt)
  | None => None
  end.

Definition bad_token (token : string) : bool :=
  match amount_of token with Some _ => false | None => true end.

Definition sample_amounts : string := "10,20.5" +:+ String Str.nl "0.99".

(** The MonetaryAmount invariant in the words of the specification: decimal
    digits, a point and exactly two more digits, the value above zero. *)
Definition is_monetary_amount (s : string) : bool :=
  match Str.split "." s with
  | [whole; cents] =>
      Str.nonempty whole && Str.all Str.isdigit whole
      && (String.length cents =? 2)%nat && Str.all Str.isdigit cents
      && negb (Str.all (Ascii.eqb "0") (whole +:+ cents))
  | _ => false
  end.

(** [v[k]] when [v] is a dict that has the key. *)
Definition field (v : json) (k : string) : option json :=
  match v with
  | JDict d => d !! k
  | _ => None
  end.

(** The number an item identifier carries after its ["web-"] prefix. *)
Definition item_number (id : string) : option N :=
  match id with
  | String "w" (String "e" (String "b" (String "-" digits))) =>
      N.of_uint <$> NilEmpty.uint_of_string digits
  | _ => None
  end.

Definition item_id (idx : N) : string := "web-" +:+ Str.zfill 3 (Str.of_N idx).

(** The part of a batch identifier that comes from the random draw. *)
Definition random_suffix (rand : Z) : string :=
  Uuid.take 16 (Uuid.hex (Uuid.uuid4 rand)).

Definition header_field (body : json) (k : string) : option json :=
  match field body "sender_batch_header" with
  | Some header => field header k
  | None => None
  end.

Definition batch_header_of (response : gmap string json) : json :=
  Py.or (Py.get response "batch_header") (Py.get response "batchHeader").

Definition payout_batch_id_of (batch_header : gmap string json) : json :=
  Py.or (Py.get batch_header "payout_batch_id") (Py.get batch_header "payoutBatchId").

(** The fallback of [_extract_batch_id]: the loop over the links. *)
Definition from_links (response : gmap string json) : result json :=
  links ← links_of response; extract_from_links links.

Definition payouts_segment : string := "/v1/payments/payouts/".

(** A link as the provider documents it: an object whose [href], when it has
    one, is a string or null. *)
Definition link_ok (link : json) : bool :=
  match link with
  | JDict l =>
      match l !! "href" with
      | None | Some JNull | Some (JStr _) => true
      | Some _ => false
      end
  | _ => false
  end.

(** The target of a link when it goes through the payouts resource. *)
Definition payouts_href (link : json) : option string :=
  match link with
  | JDict l =>
      match l !! "href" with
      | Some (JStr href) => if Py.contains payouts_segment href then Some href else None
      | _ => None
      end
  | _ => None
  end.

(** What follows the last ["/"] of a string. *)
Definition last_component (s : string) : string :=
  default EmptyString (last (Py.rsplit1 "/" s)).

Fixpoint first_payouts_link (links : list json) : json :=
  match links with
  | [] => JNull
  | link :: rest =>
      match payouts_href link with
      | Some href => JStr (last_component href)
      | None => first_payouts_link rest
      end
  end.

Definition no_slash (s : string) : bool :=
  Str.all (λ c, negb (Ascii.eqb c "/")) s.

Definition falsy_id_response : gmap string json :=
  <["batch_header" := JDict {["payout_batch_id" := JStr ""]}]>
    {["links" := JList [JDict {["href" := JStr ".../v1/payments/payouts/Z"]}]]}.




(** The error [get_access_token] raises from a cause. *)
Definition auth_error (cause : exn) : exn :=
  Chained (RuntimeError ("Failed to obtain PayPal access token: " +:+ exn_str cause)) cause.

Definition no_access_token : exn :=
  RuntimeError "No access_token in PayPal OAuth response".

(** What [get_access_token] makes of the reply to its request. *)
Definition token_of_reply (utf8_decode : string → result string)
    (json_loads : string → result json) (r : reply) : result json :=
  match r with
  | NoReply reason => Raise (auth_error (URLError reason))
  | Reply status reason body =>
      if is_2xx status then
        match (text ← utf8_decode body; payload ← json_loads text;
               Py.get_attr_get payload "access_token") with
        | Ok token =>
            if Py.truthy token then Ok token else Raise (auth_error no_access_token)
        | Raise e => Raise (auth_error e)
        end
      else Raise (auth_error (HTTPError status reason body))
  end.

(** A token endpoint that answers 200 with the body [{"access_token": ""}]. *)
Definition empty_token_body : string :=
  let q := String (ascii_of_nat 34) EmptyString in
  "{" +:+ q +:+ "access_token" +:+ q +:+ ": " +:+ q +:+ q +:+ "}".

Definition empty_token_net (r : request) : reply := Reply 200 "OK" empty_token_body.

Definition empty_token_loads (text : string) : result json :=
  if String.eqb text empty_token_body
  then Ok (JDict {["access_token" := JStr ""]})
  else Raise (JSONDecodeError "Expecting value").

Definition world0 : world := World ∅ [] [] 0.

(** The session once the credentials of the form, if it has both, are
    stored. *)
Definition session_with_form (form sess : gmap string string) : gmap string string :=
  if Str.nonempty (form_get form "client_id" "")
     && Str.nonempty (form_get form "client_secret" "")
  then <["paypal_client_secret" := form_get form "client_secret" ""]>
         (<["paypal_client_id" := form_get form "client_id" ""]> sess)
  else sess.

(** Both credentials are found, in the session or in the environment. *)
Definition credentials_given (environ sess : gmap string string) : bool :=
  negb (missing (session_or_environ_in environ sess "paypal_client_id" "PAYPAL_CLIENT_ID")
        || missing (session_or_environ_in environ sess "paypal_client_secret"
                      "PAYPAL_CLIENT_SECRET")).

Definition flashes (w : world) (message category : string) : world :=
  World (session w) (flashed w ++ [(message, category)]) (sent w) (draws w).

(** * Properties *)

(** ** [parse_amounts] *)

Lemma parse_amounts_loop_spec (pieces values : list string) :
  parse_amounts_loop pieces values =
    match List.find bad_token (tokens_of pieces) with
    | Some token => Raise (ValueError ("Invalid amount: " +:+ token))
    | None => Ok (values ++ omap amount_of (tokens_of pieces))
    end.
Proof.
  revert values. induction pieces as [|piece pieces IH]; intros values.
  - cbn. by rewrite app_nil_r.
  - cbn [parse_amounts_loop]. unfold tokens_of in *. cbn [List.map List.filter].
    destruct (Str.nonempty (Str.strip piece)) eqn:Hne; cbn [negb].
    + cbn [List.find omap list_omap]. unfold bad_token, amount_of.
      destruct (Float.of_string (Str.strip piece)) as [amt|]; cbn; [|done].
      destruct (Float.leb amt Float.zero); cbn; [done|].
      rewrite IH. destruct (List.find _ _); [done|].
      by rewrite <- app_assoc.
    + apply IH.
Qed.

Lemma parse_amounts_spec (raw : string) :
  parse_amounts raw =
    match List.find bad_token (tokens raw) with
    | Some token => Raise (ValueError ("Invalid amount: " +:+ token))
    | None =>
        match tokens raw with
        | [] => Raise (ValueError "At least one amount is required")
        | _ => Ok (omap amount_of (tokens raw))
        end
    end.
Proof.
  unfold parse_amounts, tokens. rewrite parse_amounts_loop_spec.
  destruct (List.find bad_token _) as [token|] eqn:Hfind; [done|].
  cbn. destruct (tokens_of (pieces_of raw)) as [|t ts]; [done|].
  cbn in Hfind. cbn [omap list_omap].
  unfold bad_token in Hfind.
  destruct (amount_of t); [done|discriminate].
Qed.

Lemma find_bad_none (ts : list string) :
  List.find bad_token ts = None →
  length (omap amount_of ts) = length ts.
Proof.
  induction ts as [|t ts IH]; [done|]. cbn. unfold bad_token at 1.
  destruct (amount_of t) eqn:Ht; [|done]. intros H. cbn. by rewrite IH.
Qed.

(** C1: on the text "10,20.5\n0.99" parse_amounts returns exactly
    ["10.00"; "20.50"; "0.99"], in input order; in general its result is
    made of the text's pieces between commas, line feeds and carriage
    returns, stripped, the empty ones dropped, each normalized to two
    decimals, in the order of the text. *)
Theorem C1_parse_amounts_sample :
  parse_amounts sample_amounts = Ok ["10.00"; "20.50"; "0.99"]
  ∧ tokens sample_amounts = ["10"; "20.5"; "0.99"]
  ∧ ∀ raw amounts, parse_amounts raw = Ok amounts →
      amounts = omap amount_of (tokens raw) ∧ length amounts = length (tokens raw).
Proof.
  split; [by vm_compute|]. split; [by vm_compute|].
  intros raw amounts. rewrite parse_amounts_spec.
  destruct (List.find bad_token (tokens raw)) eqn:Hfind; [done|].
  apply find_bad_none in Hfind.
  destruct (tokens raw) eqn:Ht; [done|].
  intros Heq. injection Heq as Heq. by rewrite <- Heq.
Qed.

Lemma bad_token_iff (token : string) :
  bad_token token = true ↔
    Float.of_string token = None
    ∨ ∃ amt, Float.of_string token = Some amt ∧ Float.leb amt Float.zero = true.
Proof.
  unfold bad_token, amount_of.
  destruct (Float.of_string token) as [amt|]; [|by intuition].
  destruct (Float.leb amt Float.zero) eqn:Hle.
  - split; [|done]. intros _. right. by exists amt.
  - split; [done|]. intros [|(amt' & [= <-] & Hle')]; congruence.
Qed.

Lemma find_bad_some_iff (ts : list string) :
  (∃ token, List.find bad_token ts = Some token)
  ↔ ∃ token, In token ts ∧ bad_token token = true.
Proof.
  split.
  - intros [token H]. exists token. by apply find_some in H.
  - intros (token & Hin & Hbad).
    destruct (List.find bad_token ts) as [t|] eqn:Hfind; [by exists t|].
    pose proof (find_none _ _ Hfind _ Hin). congruence.
Qed.

Lemma parse_amounts_nonempty (raw : string) (amounts : list string) :
  parse_amounts raw = Ok amounts → amounts ≠ [].
Proof.
  rewrite parse_amounts_spec.
  destruct (List.find bad_token (tokens raw)) eqn:Hfind; [done|].
  apply find_bad_none in Hfind.
  destruct (tokens raw) as [|t ts]; [done|].
  intros Heq.
  assert (Hl : length amounts = length (t :: ts))
    by (injection Heq as <-; exact Hfind).
  by destruct amounts.
Qed.

(** C2: parse_amounts raises exactly when the text has no token (the
    "at least one amount" error: the empty text, a text of blanks) or has a
    token that float refuses or reads as a number that is not above zero
    (the "invalid amount" error, naming the first such token: "abc", "-5");
    every error is a ValueError, and otherwise the result is a non-empty
    list. *)
Theorem C2_parse_amounts_errors :
  parse_amounts "" = Raise (ValueError "At least one amount is required")
  ∧ parse_amounts "   " = Raise (ValueError "At least one amount is required")
  ∧ parse_amounts "-5" = Raise (ValueError "Invalid amount: -5")
  ∧ parse_amounts "abc" = Raise (ValueError "Invalid amount: abc")
  ∧ ∀ raw : string,
      (tokens raw = [] →
         parse_amounts raw = Raise (ValueError "At least one amount is required"))
      ∧ (∀ token, List.find bad_token (tokens raw) = Some token →
           parse_amounts raw = Raise (ValueError ("Invalid amount: " +:+ token)))
      ∧ ((∃ e, parse_amounts raw = Raise e) ↔
           tokens raw = []
           ∨ ∃ token, In token (tokens raw)
               ∧ (Float.of_string token = None
                  ∨ ∃ amt, Float.of_string token = Some amt
                           ∧ Float.leb amt Float.zero = true))
      ∧ (∀ e, parse_amounts raw = Raise e → ∃ msg, e = ValueError msg)
      ∧ (∀ amounts, parse_amounts raw = Ok amounts →
           amounts ≠ [] ∧ tokens raw ≠ []
           ∧ ∀ token, In token (tokens raw) → bad_token token = false).
Proof.
  do 4 (split; [by vm_compute|]).
  intros raw. rewrite parse_amounts_spec.
  destruct (List.find bad_token (tokens raw)) as [bad|] eqn:Hfind.
  - assert (Hex : ∃ token, In token (tokens raw) ∧ bad_token token = true).
    { apply find_bad_some_iff. by exists bad. }
    split_and!.
    + intros Hnil. by rewrite Hnil in Hfind.
    + by intros token [= <-].
    + split; [|intros _; by eexists].
      intros _. right. destruct Hex as (token & Hin & Hbad).
      exists token. split; [done|]. by apply bad_token_iff.
    + intros e [= <-]. by eexists.
    + done.
  - pose proof (find_none _ _ Hfind) as Hnone.
    pose proof (find_bad_none _ Hfind) as Hlen.
    destruct (tokens raw) as [|t ts] eqn:Ht.
    + split_and!; try done.
      * split; [intros _; by left|intros _; by eexists].
      * intros e [= <-]. by eexists.
    + split_and!; try done.
      * split; [by intros [e He]|].
        intros [|(token & Hin & Hbad)]; [done|].
        apply bad_token_iff in Hbad. rewrite Hnone in Hbad; done.
      * intros amounts Heq. split_and!; [|done|exact Hnone].
        assert (Hl : length amounts = length (t :: ts))
          by (injection Heq as <-; exact Hlen).
        by destruct amounts.
Qed.

(** C3: the code at the inputs that break the claim.  float reads "nan",
    "inf" and "1e999" as numbers that are not below or equal to zero, so they
    pass the check and are formatted as "nan" and "inf"; a positive amount
    below half a cent is formatted as "0.00".  None of these results is a
    decimal with two fractional digits and a value above zero. *)
Theorem C3_parse_amounts_not_monetary :
  parse_amounts "nan" = Ok ["nan"] ∧ is_monetary_amount "nan" = false
  ∧ parse_amounts "inf" = Ok ["inf"] ∧ is_monetary_amount "inf" = false
  ∧ parse_amounts "1e999" = Ok ["inf"]
  ∧ parse_amounts "0.001" = Ok ["0.00"] ∧ is_monetary_amount "0.00" = false
  ∧ is_monetary_amount "44.99" = true.
Proof. split_and!; by vm_compute. Qed.

(** ** [build_payout_body] *)

Lemma build_items_spec (email currency : string) (amounts : list string) :
  ∀ (idx : N) (items : list json),
    build_items email currency idx amounts items =
      items ++ imap (λ i amount, payout_item email currency (idx + N.of_nat i) amount) amounts.
Proof.
  induction amounts as [|amount rest IH]; intros idx items; cbn [build_items].
  - by rewrite app_nil_r.
  - rewrite IH, imap_cons, <- app_assoc. cbn [app].
    rewrite N.add_0_r. do 2 f_equal. apply imap_ext. intros i x _. cbn.
    f_equal. lia.
Qed.

Lemma uint_of_string_zeros (k : nat) (s : string) (d : Decimal.uint) :
  NilEmpty.uint_of_string s = Some d →
  ∃ d', NilEmpty.uint_of_string (Str.zeros k +:+ s) = Some d'
        ∧ N.of_uint d' = N.of_uint d.
Proof.
  intros Hs. induction k as [|k (d' & Hd' & Heq)]; [by exists d|].
  exists (Decimal.D0 d').
  change (Str.zeros (S k) +:+ s) with (String "0" (Str.zeros k +:+ s)).
  cbn [NilEmpty.uint_of_string]. by rewrite Hd'.
Qed.

Lemma item_number_id (idx : N) : item_number (item_id idx) = Some idx.
Proof.
  change (item_number (item_id idx))
    with (N.of_uint <$> NilEmpty.uint_of_string (Str.zfill 3 (Str.of_N idx))).
  unfold Str.zfill, Str.of_N.
  destruct (uint_of_string_zeros
              (3 - String.length (NilEmpty.string_of_uint (N.to_uint idx)))
              _ _ (NilEmpty.usu (N.to_uint idx))) as (d' & -> & Heq).
  cbn. by rewrite Heq, DecimalN.Unsigned.of_to.
Qed.

Lemma item_id_width (idx : N) :
  (idx < 1000)%N → String.length (item_id idx) = 7%nat.
Proof.
  intros Hlt.
  assert (Hall : forallb (λ n, (String.length (item_id (N.of_nat n)) =? 7)%nat)
                   (seq 0 1000) = true) by (by vm_compute).
  rewrite forallb_forall in Hall.
  specialize (Hall (N.to_nat idx)). rewrite N2Nat.id in Hall.
  apply Nat.eqb_eq, Hall, in_seq. lia.
Qed.

(** C4: the document build_payout_body returns has an items list with one
    entry per amount, in the order of the amounts; the entry at position i
    (from 0) has the sender_item_id "web-" followed by i+1 in decimal, padded
    with zeros to three digits ("web-001", "web-002", ...), so the numbers
    the identifiers carry count up from 1; it carries the amount at that
    position with the currency, the receiver email, and the literals "PAYPAL"
    and "GOODS".  Up to 999 amounts every identifier has the same width. *)
Theorem C4_build_payout_items
    (rand : Z) (email : string) (amounts : list string)
    (currency subject message : string) :
  ∃ items : list json,
    field (build_payout_body rand email amounts currency subject message) "items"
      = Some (JList items)
    ∧ length items = length amounts
    ∧ (∀ (i : nat) (amount : string), amounts !! i = Some amount →
         ∃ item, items !! i = Some item
           ∧ field item "sender_item_id" = Some (JStr (item_id (N.of_nat (S i))))
           ∧ field item "amount"
               = Some (JDict (<["value" := JStr amount]> {["currency" := JStr currency]}))
           ∧ field item "recipient_wallet" = Some (JStr "PAYPAL")
           ∧ field item "receiver" = Some (JStr email)
           ∧ field item "purpose" = Some (JStr "GOODS"))
    ∧ (∀ idx : N, item_number (item_id idx) = Some idx)
    ∧ (∀ idx : N, (idx < 1000)%N → String.length (item_id idx) = 7%nat)
    ∧ item_id 1 = "web-001" ∧ item_id 2 = "web-002" ∧ item_id 12 = "web-012"
    ∧ item_id 999 = "web-999".
Proof.
  exists (build_items email currency 1 amounts []). split_and!.
  - done.
  - rewrite build_items_spec. cbn [app]. apply length_imap.
  - intros i amount Hi. rewrite build_items_spec. cbn [app].
    rewrite list_lookup_imap, Hi. cbn [fmap option_fmap option_map].
    eexists. split; [reflexivity|].
    replace (1 + N.of_nat i)%N with (N.of_nat (S i)) by lia.
    unfold payout_item, field, item_id. split_and!; by simplify_map_eq.
  - apply item_number_id.
  - apply item_id_width.
  - done.
  - done.
  - done.
  - done.
Qed.

Lemma generate_sender_batch_id_suffix (rand : Z) :
  _generate_sender_batch_id rand = "SB-" +:+ random_suffix rand.
Proof. reflexivity. Qed.

Lemma sender_batch_id_inj (rand1 rand2 : Z) :
  _generate_sender_batch_id rand1 = _generate_sender_batch_id rand2 →
  random_suffix rand1 = random_suffix rand2.
Proof.
  rewrite !generate_sender_batch_id_suffix.
  generalize (random_suffix rand1), (random_suffix rand2). intros s1 s2.
  change ("SB-" +:+ s1) with (String "S" (String "B" (String "-" s1))).
  change ("SB-" +:+ s2) with (String "S" (String "B" (String "-" s2))).
  intros Heq. by injection Heq.
Qed.

(** C5: two documents built from the same arguments with the draws rand1
    and rand2 have the same items and the same recipient_type, email_subject
    and email_message; their sender_batch_id values are "SB-" followed by the
    random suffix of each draw, so they differ exactly when the suffixes
    differ, and nothing else in the documents differs. *)
Theorem C5_build_payout_body_randomness
    (rand1 rand2 : Z) (email : string) (amounts : list string)
    (currency subject message : string) :
  let body1 := build_payout_body rand1 email amounts currency subject message in
  let body2 := build_payout_body rand2 email amounts currency subject message in
  field body1 "items" = field body2 "items"
  ∧ (∀ k, k ≠ "sender_batch_header" → field body1 k = field body2 k)
  ∧ (∀ k, k ≠ "sender_batch_id" → header_field body1 k = header_field body2 k)
  ∧ header_field body1 "recipient_type" = Some (JStr "EMAIL")
  ∧ header_field body1 "email_subject" = Some (JStr subject)
  ∧ header_field body1 "email_message" = Some (JStr message)
  ∧ header_field body1 "sender_batch_id" = Some (JStr ("SB-" +:+ random_suffix rand1))
  ∧ header_field body2 "sender_batch_id" = Some (JStr ("SB-" +:+ random_suffix rand2))
  ∧ (random_suffix rand1 ≠ random_suffix rand2 ↔
       header_field body1 "sender_batch_id" ≠ header_field body2 "sender_batch_id")
  ∧ (random_suffix rand1 = random_suffix rand2 → body1 = body2).
Proof.
  intros body1 body2. subst body1 body2.
  unfold header_field, build_payout_body, field.
  rewrite <- !generate_sender_batch_id_suffix.
  pose proof (sender_batch_id_inj rand1 rand2) as Hinj.
  assert (Hsame : random_suffix rand1 = random_suffix rand2 →
                  _generate_sender_batch_id rand1 = _generate_sender_batch_id rand2)
    by (rewrite !generate_sender_batch_id_suffix; by intros ->).
  revert Hinj Hsame.
  generalize (_generate_sender_batch_id rand1), (_generate_sender_batch_id rand2).
  intros id1 id2 Hinj Hsame.
  rewrite !lookup_insert_eq. cbv beta iota. split_and!.
  - done.
  - intros k Hk. by rewrite !(lookup_insert_ne _ "sender_batch_header" k) by congruence.
  - intros k Hk. by rewrite !(lookup_insert_ne _ "sender_batch_id" k) by congruence.
  - done.
  - done.
  - done.
  - by rewrite ?lookup_insert_eq.
  - by rewrite ?lookup_insert_eq.
  - rewrite ?lookup_insert_eq. split.
    + intros Hne [= Heq]. by apply Hne, Hinj.
    + intros Hne Heq. apply Hne. by rewrite (Hsame Heq).
  - intros Heq. by rewrite (Hsame Heq).
Qed.

(** ** [_extract_batch_id] *)

Lemma prefix_app (pat s : string) : String.prefix pat (pat +:+ s) = true.
Proof.
  induction pat as [|c pat IH].
  - by destruct s.
  - simpl. destruct (ascii_dec c c); [done|congruence].
Qed.

Lemma contains_prefix (pat s : string) :
  String.prefix pat s = true → Py.contains pat s = true.
Proof. destruct s; simpl; by intros ->. Qed.

Lemma contains_app (pat before after : string) :
  Py.contains pat (before +:+ pat +:+ after) = true.
Proof.
  induction before as [|c before IH].
  - apply contains_prefix. exact (prefix_app pat after).
  - simpl. simpl in IH. rewrite IH. by rewrite orb_true_r.
Qed.

Lemma rsplit1_no_sep (sep : ascii) (s : string) :
  Str.all (λ c, negb (Ascii.eqb c sep)) s = true → Py.rsplit1 sep s = [s].
Proof.
  induction s as [|c s IH]; [done|]. cbn [Str.all Py.rsplit1].
  intros [Hc Hs]%andb_true_iff. rewrite (IH Hs).
  by destruct (Ascii.eqb c sep).
Qed.

Lemma rsplit1_app (sep : ascii) (before after : string) :
  Str.all (λ c, negb (Ascii.eqb c sep)) after = true →
  Py.rsplit1 sep (before +:+ String sep after) = [before; after].
Proof.
  intros Hafter. induction before as [|c before IH].
  - simpl. rewrite (rsplit1_no_sep _ _ Hafter). by rewrite Ascii.eqb_refl.
  - simpl. simpl in IH. by rewrite IH.
Qed.

Lemma last_component_app (before after : string) :
  no_slash after = true → last_component (before +:+ String "/" after) = after.
Proof.
  intros H. unfold last_component. by rewrite rsplit1_app.
Qed.

Lemma last_component_segment (before id : string) :
  no_slash id = true → last_component (before +:+ payouts_segment +:+ id) = id.
Proof.
  intros Hid.
  etrans; [|exact (last_component_app (before +:+ "/v1/payments/payouts") id Hid)].
  f_equal. unfold payouts_segment.
  induction before as [|c before IH]; [done|].
  change (String c (before +:+ "/v1/payments/payouts/" +:+ id) =
          String c ((before +:+ "/v1/payments/payouts") +:+ String "/" id)).
  by rewrite IH.
Qed.

Lemma extract_from_links_ok (links : list json) :
  forallb link_ok links = true →
  extract_from_links links = Ok (first_payouts_link links).
Proof.
  induction links as [|link rest IH]; [done|].
  cbn [forallb]. intros [Hlink Hrest]%andb_true_iff.
  cbn [extract_from_links first_payouts_link].
  destruct link as [| | | | |?|l]; try discriminate.
  unfold payouts_href. cbn [Py.get_attr_get]. unfold Py.get.
  cbn [link_ok] in Hlink.
  destruct (l !! "href") as [[| | | |href| |]|]; try discriminate; cbn.
  - by apply IH.
  - fold payouts_segment. destruct href as [|c href]; cbn [Str.nonempty].
    + cbn. by apply IH.
    + destruct (Py.contains payouts_segment (String c href)); cbn; [done|by apply IH].
  - by apply IH.
Qed.

Lemma extract_with_id (response bh : gmap string json) :
  batch_header_of response = JDict bh →
  Py.truthy (payout_batch_id_of bh) = true →
  _extract_batch_id (JDict response) = Ok (payout_batch_id_of bh).
Proof.
  unfold _extract_batch_id, batch_header_of, payout_batch_id_of.
  by intros -> ->.
Qed.

Lemma extract_without_id (response bh : gmap string json) :
  batch_header_of response = JDict bh →
  Py.truthy (payout_batch_id_of bh) = false →
  _extract_batch_id (JDict response) = from_links response.
Proof.
  unfold _extract_batch_id, batch_header_of, payout_batch_id_of.
  by intros -> ->.
Qed.

Lemma extract_without_header (response : gmap string json) :
  (∀ bh, batch_header_of response ≠ JDict bh) →
  _extract_batch_id (JDict response) = from_links response.
Proof.
  unfold _extract_batch_id, batch_header_of. intros Hno.
  destruct (Py.or _ _) as [| | | | | |bh]; try done. by destruct (Hno bh).
Qed.

Lemma from_links_list (response : gmap string json) (links : list json) :
  response !! "links" = Some (JList links) →
  forallb link_ok links = true →
  from_links response = Ok (first_payouts_link links).
Proof.
  intros Hlinks Hok. unfold from_links, links_of, Py.get_default.
  rewrite Hlinks. cbn [default]. unfold Py.or.
  destruct links as [|link rest]; [done|].
  cbn [Py.truthy Py.iter mbind result_bind]. by apply extract_from_links_ok.
Qed.

Lemma from_links_absent (response : gmap string json) :
  response !! "links" = None ∨ response !! "links" = Some JNull →
  from_links response = Ok JNull.
Proof.
  unfold from_links, links_of, Py.get_default. by intros [-> | ->].
Qed.

(** C6: the identifier is read from the batch header under either spelling
    of the header and of the field, and otherwise from the links: the four
    documents of the specification give "X", "Y", "Z" and None; in general a
    header with a true identifier gives that identifier, a link whose href
    ends in the payouts segment and a last component gives that component,
    and a response without a header dict gives the last component of the
    href of its first link through the payouts segment, or None. *)
Theorem C6_extract_batch_id_sources :
  _extract_batch_id
    (JDict {["batch_header" := JDict {["payout_batch_id" := JStr "X"]}]}) = Ok (JStr "X")
  ∧ _extract_batch_id
      (JDict {["batchHeader" := JDict {["payoutBatchId" := JStr "Y"]}]}) = Ok (JStr "Y")
  ∧ _extract_batch_id
      (JDict {["links" := JList [JDict {["href" := JStr ".../v1/payments/payouts/Z"]}]]})
      = Ok (JStr "Z")
  ∧ _extract_batch_id (JDict ∅) = Ok JNull
  ∧ (∀ response bh : gmap string json,
       batch_header_of response = JDict bh →
       Py.truthy (payout_batch_id_of bh) = true →
       _extract_batch_id (JDict response) = Ok (payout_batch_id_of bh))
  ∧ (∀ before id : string,
       no_slash id = true →
       _extract_batch_id
         (JDict {["links" := JList [JDict {["href" := JStr (before +:+ payouts_segment +:+ id)]}]]})
         = Ok (JStr id))
  ∧ (∀ (response : gmap string json) (links : list json),
       (∀ bh, batch_header_of response ≠ JDict bh) →
       response !! "links" = Some (JList links) →
       forallb link_ok links = true →
       _extract_batch_id (JDict response) = Ok (first_payouts_link links)).
Proof.
  split_and!.
  - by vm_compute.
  - by vm_compute.
  - by vm_compute.
  - by vm_compute.
  - apply extract_with_id.
  - intros before id Hid.
    rewrite extract_without_header by (intros bh; by vm_compute).
    erewrite from_links_list; [|apply lookup_singleton_eq|done].
    cbn [first_payouts_link]. unfold payouts_href.
    rewrite lookup_singleton_eq, contains_app. do 2 f_equal.
    by apply last_component_segment.
  - intros response links Hno Hlinks Hok.
    rewrite extract_without_header by done. by apply from_links_list.
Qed.

(** C7: the code at documents that break the claim.  A batch header that is
    not a dict is passed over, but the links are used as they come: an entry
    that is not a dict has no get method, a links value that is a number
    cannot be iterated, and an href that is a number cannot be searched; each
    raises where the claim promises an identifier or None. *)
Theorem C7_extract_batch_id_raises :
  _extract_batch_id (JDict {["batch_header" := JStr "oops"]}) = Ok JNull
  ∧ _extract_batch_id
      (JDict {["links" := JList [JStr "https://api-m.paypal.com/v1/payments/payouts/ABC"]]})
      = Raise (AttributeError "'str' object has no attribute 'get'")
  ∧ _extract_batch_id (JDict {["links" := JInt 5]})
      = Raise (TypeError "'int' object is not iterable")
  ∧ _extract_batch_id (JDict {["links" := JList [JDict {["href" := JInt 5]}]]})
      = Raise (TypeError "argument of type 'int' is not iterable")
  ∧ _extract_batch_id (JDict {["links" := JList [JNull]]})
      = Raise (AttributeError "'NoneType' object has no attribute 'get'").
Proof. split_and!; by vm_compute. Qed.







(** ** [get_access_token] *)

Section ClientProperties.

Variable net : request → reply.
Variable utf8_decode : string → result string.
Variable json_loads : string → result json.

Lemma get_access_token_run (client_id client_secret : string) (w : world) :
  get_access_token net utf8_decode json_loads client_id client_secret w =
    (token_of_reply utf8_decode json_loads (net (oauth_request client_id client_secret)),
     World (session w) (flashed w)
           (sent w ++ [oauth_request client_id client_secret]) (draws w)).
Proof.
  unfold get_access_token, io_try, urlopen, token_of_reply.
  cbv [mbind IO_bind result_bind mret IO_ret raise lift].
  destruct (net (oauth_request client_id client_secret)) as [reason|status reason body];
    [reflexivity|].
  destruct (is_2xx status); [|reflexivity].
  destruct (utf8_decode body) as [text|e]; [|reflexivity].
  destruct (json_loads text) as [payload|e]; [|reflexivity].
  destruct (Py.get_attr_get payload "access_token") as [token|e]; [|reflexivity].
  destruct (Py.truthy token); reflexivity.
Qed.

(** C8 (amended): get_access_token sends one request and raises, chained
    to its cause, on a transport error, on a status outside 200..299 (the
    message then reads "HTTP Error <status>: <reason>", so 401 for a 401), on
    a body that is not UTF-8 or not JSON, on a payload that is not an
    object, and on an access_token that is missing or false (null, the empty
    string, zero); it returns the access_token exactly when the status is
    2xx and the payload is an object whose access_token is true. *)
Theorem C8_get_access_token_outcomes (client_id client_secret : string) (w : world) :
  let request := oauth_request client_id client_secret in
  let run := get_access_token net utf8_decode json_loads client_id client_secret w in
  run.2 = World (session w) (flashed w) (sent w ++ [request]) (draws w)
  ∧ (∀ reason, net request = NoReply reason →
       run.1 = Raise (auth_error (URLError reason)))
  ∧ (∀ status reason body, net request = Reply status reason body →
       is_2xx status = false →
       run.1 = Raise (auth_error (HTTPError status reason body)))
  ∧ (∀ reason body,
       exn_str (auth_error (HTTPError 401 reason body))
         = "Failed to obtain PayPal access token: HTTP Error 401: " +:+ reason)
  ∧ (∀ status reason body, net request = Reply status reason body →
       is_2xx status = true →
       (∀ e, utf8_decode body = Raise e → run.1 = Raise (auth_error e))
       ∧ (∀ text e, utf8_decode body = Ok text → json_loads text = Raise e →
            run.1 = Raise (auth_error e))
       ∧ (∀ text payload, utf8_decode body = Ok text →
            json_loads text = Ok payload → (∀ d, payload ≠ JDict d) →
            run.1 = Raise (auth_error (Py.no_attribute payload "get")))
       ∧ (∀ text d, utf8_decode body = Ok text → json_loads text = Ok (JDict d) →
            (Py.truthy (Py.get d "access_token") = false →
               run.1 = Raise (auth_error no_access_token))
            ∧ (Py.truthy (Py.get d "access_token") = true →
                 run.1 = Ok (Py.get d "access_token"))))
  ∧ (∀ token, run.1 = Ok token →
       ∃ status reason body text d,
         net request = Reply status reason body ∧ is_2xx status = true
         ∧ utf8_decode body = Ok text ∧ json_loads text = Ok (JDict d)
         ∧ d !! "access_token" = Some token ∧ Py.truthy token = true)
  ∧ (∀ e, run.1 = Raise e → ∃ cause, e = auth_error cause).
Proof.
  intros request run. subst run. rewrite get_access_token_run.
  fold request. cbn [fst snd]. unfold token_of_reply. split_and!.
  - done.
  - by intros reason ->.
  - by intros status reason body -> ->.
  - done.
  - intros status reason body -> ->. split_and!.
    + by intros e ->.
    + intros text e -> . cbn. by intros ->.
    + intros text payload ->. cbn. intros -> Hnot.
      destruct payload as [| | | | | |d]; try done. by destruct (Hnot d).
    + intros text d ->. cbn. intros ->. cbn. split; by intros ->.
  - intros token.
    destruct (net request) as [reason|status reason body]; [done|].
    destruct (is_2xx status) eqn:H2xx; [|done].
    destruct (utf8_decode body) as [text|e] eqn:Htext; [|done]. cbn.
    destruct (json_loads text) as [payload|e] eqn:Hpayload; [|done]. cbn.
    destruct payload as [| | | | | |d]; try done. cbn. unfold Py.get.
    destruct (d !! "access_token") as [tok|] eqn:Htok; [|done]. cbn.
    destruct (Py.truthy tok) eqn:Htruthy; [|done].
    intros [= ->]. by exists status, reason, body, text, d.
  - intros e.
    destruct (net request) as [reason|status reason body];
      [intros [= <-]; by eexists|].
    destruct (is_2xx status); [|intros [= <-]; by eexists].
    destruct (mbind _ _) as [token|cause]; [|intros [= <-]; by eexists].
    destruct (Py.truthy token); [done|intros [= <-]; by eexists].
Qed.

End ClientProperties.

(** C8, as stated, fails: a 2xx response whose JSON object has an
    access_token field (here the empty string) is none of the three
    situations of the claim, and yet the call raises instead of returning the
    field's value. *)
Lemma C8_empty_access_token_raises :
  empty_token_net (oauth_request "id" "secret") = Reply 200 "OK" empty_token_body
  ∧ is_2xx 200 = true
  ∧ empty_token_loads empty_token_body = Ok (JDict {["access_token" := JStr ""]})
  ∧ (get_access_token empty_token_net Ok empty_token_loads "id" "secret" world0).1
    = Raise (Chained
        (RuntimeError
           "Failed to obtain PayPal access token: No access_token in PayPal OAuth response")
        (RuntimeError "No access_token in PayPal OAuth response")).
Proof. split_and!; by vm_compute. Qed.

(** ** The [/payout] route *)

Section RouteProperties.

Variable net : request → reply.
Variable urandom : nat → Z.
Variable utf8_decode : string → result string.
Variable json_loads : string → result json.
Variable json_dumps : option Z → json → string.
Variable py_str : json → string.
Variable str_upper : string → string.
Variable environ : gmap string string.

Local Abbreviation route :=
  (create_payout_route net urandom utf8_decode json_loads json_dumps py_str
     str_upper environ).

Lemma route_invalid_amounts (form : gmap string string) (w : world) (e : exn) :
  parse_amounts (form_get form "amounts" "") = Raise e →
  let w1 := World (session_with_form form (session w)) (flashed w) (sent w) (draws w) in
  route form w =
    (Ok (Redirect "index" ∅),
     flashes w1
       (if credentials_given environ (session w1) then
          if Str.nonempty (form_get form "email" "") then exn_str e
          else "Recipient email is required"
        else "Provide PayPal Client ID/Secret in the form or set environment variables.")
       "error").
Proof.
  intros Hparse w1. subst w1.
  unfold create_payout_route, io_try, credentials_given, session_with_form, flashes.
  cbv [mbind IO_bind mret IO_ret raise lift session_set flash session_or_environ].
  cbn [session flashed sent draws].
  destruct (Str.nonempty (form_get form "client_id" "")
            && Str.nonempty (form_get form "client_secret" "")).
  - cbn [session flashed sent draws].
    destruct (missing _ || missing _); cbn [negb]; [reflexivity|].
    destruct (Str.nonempty (form_get form "email" "")); cbn [negb]; [|reflexivity].
    rewrite Hparse. reflexivity.
  - cbn [session flashed sent draws].
    destruct (missing _ || missing _); cbn [negb]; [reflexivity|].
    destruct (Str.nonempty (form_get form "email" "")); cbn [negb]; [|reflexivity].
    rewrite Hparse. reflexivity.
Qed.

Lemma create_payout_sent (token body : json) (w : world) :
  ∃ req, sent (create_payout net urandom utf8_decode json_loads json_dumps py_str
                 token body true None w).2 = sent w ++ [req].
Proof.
  unfold create_payout, io_try, urlopen, uuid4_hex.
  cbv [mbind IO_bind mret IO_ret raise lift].
  cbn [session flashed sent draws].
  match goal with |- context [net ?r] => exists r; destruct (net r) as [reason|status reason raw] end;
    [reflexivity|].
  destruct (is_2xx status); repeat case_match; by simplify_eq/=.
Qed.

Lemma route_valid_amounts (form : gmap string string) (w : world) (amounts : list string) :
  parse_amounts (form_get form "amounts" "") = Ok amounts →
  sent (route form w).2 = sent w
  ∨ ∃ client_id client_secret more,
      sent (route form w).2 = sent w ++ oauth_request client_id client_secret :: more.
Proof.
  intros Hparse.
  unfold create_payout_route, io_try.
  cbv [mbind IO_bind mret IO_ret raise lift session_set flash session_or_environ draw].
  cbn [session flashed sent draws].
  destruct (Str.nonempty (form_get form "client_id" "")
            && Str.nonempty (form_get form "client_secret" ""));
    cbn [session flashed sent draws];
    (destruct (missing _ || missing _); [by left|]);
    (destruct (negb _); [by left|]);
    rewrite Hparse, get_access_token_run; right; eexists _, _;
    (destruct (token_of_reply _ _ _) as [token|e]; [|by eexists]);
    match goal with
    | |- context [create_payout ?p1 ?p2 ?p3 ?p4 ?p5 ?p6 ?tok ?bdy ?p9 ?p10 ?wx] =>
      destruct (create_payout_sent tok bdy wx) as [req Hreq];
      destruct (create_payout p1 p2 p3 p4 p5 p6 tok bdy p9 p10 wx) as [[result|e'] w3]
    end;
    cbn [snd sent] in Hreq;
    repeat case_match; simplify_eq/=; rewrite Hreq, <- app_assoc; by eexists.
Qed.

Lemma route_returns (form : gmap string string) (w : world) :
  ∃ resp, (route form w).1 = Ok resp.
Proof.
  unfold create_payout_route, io_try.
  cbv [mbind IO_bind mret IO_ret raise lift session_set flash session_or_environ draw].
  repeat case_match; simplify_eq/=; by eexists.
Qed.

(** C9: when parse_amounts raises on the amounts of the form, the route
    sends no request at all (neither the token exchange nor the payout) and
    draws no identifier; it flashes one error message and redirects to the
    index, and that message is the validation error whenever the credentials
    and the recipient email are there.  Conversely a run that sends anything
    has validated its amounts first, and the first request it sends is the
    token exchange.  The route always returns a response. *)
Theorem C9_validation_precedes_remote_calls (form : gmap string string) (w : world) :
  let run := route form w in
  let raw_amounts := form_get form "amounts" "" in
  let sess := session_with_form form (session w) in
  (∀ e, parse_amounts raw_amounts = Raise e →
     sent run.2 = sent w
     ∧ draws run.2 = draws w
     ∧ run.1 = Ok (Redirect "index" ∅)
     ∧ (∃ message, flashed run.2 = flashed w ++ [(message, "error")])
     ∧ (credentials_given environ sess = true →
        Str.nonempty (form_get form "email" "") = true →
        flashed run.2 = flashed w ++ [(exn_str e, "error")]))
  ∧ (sent run.2 ≠ sent w →
       ∃ amounts client_id client_secret more,
         parse_amounts raw_amounts = Ok amounts ∧ amounts ≠ []
         ∧ sent run.2 = sent w ++ oauth_request client_id client_secret :: more)
  ∧ (∃ resp, run.1 = Ok resp).
Proof.
  intros run raw_amounts sess. subst run raw_amounts sess. split_and!.
  - intros e He. rewrite (route_invalid_amounts _ _ _ He). cbn.
    split_and!; try done.
    + by eexists.
    + by intros -> ->.
  - intros Hsent.
    destruct (parse_amounts (form_get form "amounts" "")) as [amounts|e] eqn:Hparse.
    + destruct (route_valid_amounts form w amounts Hparse)
        as [Hsame|(client_id & client_secret & more & Hmore)]; [done|].
      exists amounts, client_id, client_secret, more. split_and!; try done.
      by apply (parse_amounts_nonempty _ _ Hparse).
    + by rewrite (route_invalid_amounts _ _ _ Hparse) in Hsent.
  - apply route_returns.
Qed.

End RouteProperties.

(** * The rest of [mass.py] and [app.py] *)

(** [f"{v}"]: a string is rendered as it is, any other value by [str]. *)
Definition py_format (py_str : json → string) (v : json) : string :=
  match v with
  | JStr s => s
  | _ => py_str v
  end.

(** What a view that may answer with a bare text returns:
    [render_template(template, **context)] or [(body, status)]. *)
Inductive view : Type :=
| Page (template : string) (context : gmap string json)
| Plain (body : string) (status : Z).

(** The process [main] runs in: the world, and what was printed. *)
Record process := Process {
  proc_world : world;
  stdout : list string;
  stderr : list string
}.

Definition CLI (A : Type) : Type := process → result A * process.

#[export] Instance CLI_ret : MRet CLI := λ A a p, (Ok a, p).
#[export] Instance CLI_bind : MBind CLI := λ A B k m p,
  match m p with
  | (Ok a, p') => k a p'
  | (Raise e, p') => (Raise e, p')
  end.

(** A computation on the world, run inside the process. *)
Definition run_io {A} (m : IO A) : CLI A := λ p,
  let '(r, w') := m (proc_world p) in (r, Process w' (stdout p) (stderr p)).

(** [print(s)] and [print(s, file=sys.stderr)] *)
Definition print (s : string) : CLI unit := λ p,
  (Ok tt, Process (proc_world p) (stdout p ++ [s]) (stderr p)).
Definition eprint (s : string) : CLI unit := λ p,
  (Ok tt, Process (proc_world p) (stdout p) (stderr p ++ [s])).

(** [try: m  except Exception as e: h e] *)
Definition cli_try {A} (m : CLI A) (h : exn → CLI A) : CLI A := λ p,
  match m p with
  | (Ok a, p') => (Ok a, p')
  | (Raise e, p') => h e p'
  end.

(** The document [main] submits. *)
Definition main_item (value item_id : string) : json :=
  JDict (<["amount" := JDict (<["value" := JStr value]> {["currency" := JStr "USD"]})]>
        (<["sender_item_id" := JStr item_id]>
        (<["recipient_wallet" := JStr "PAYPAL"]>
        {["receiver" := JStr "bookandwords@yahoo.com"]}))).

Definition main_payout_body (rand : Z) : json :=
  JDict (<["sender_batch_header" :=
            JDict (<["sender_batch_id" := JStr (_generate_sender_batch_id rand)]>
                  (<["recipient_type" := JStr "EMAIL"]>
                  (<["email_subject" := JStr "You have money!"]>
                  {["email_message" :=
                      JStr "You received a payment. Thanks for using our service!"]})))]>
        {["items" := JList [main_item "44.99" "201403140101";
                            main_item "38.99" "201403140102"]]}).

(** The request [get_payout_status] builds. *)
Definition status_request (py_str : json → string) (access_token payout_batch_id : json)
  : request :=
  add_header "Accept" "application/json"
    (add_header "Authorization" ("Bearer " +:+ py_format py_str access_token)
      (Request (PAYOUTS_URL +:+ "/" +:+ py_format py_str payout_batch_id) None "GET" ∅)).

Section Pages.

Variable net : request → reply.
Variable urandom : nat → Z.
Variable utf8_decode : string → result string.
Variable json_loads : string → result json.
Variable json_dumps : option Z → json → string.
Variable py_str : json → string.
Variable environ : gmap string string.

Definition get_payout_status (access_token payout_batch_id : json) : IO json :=
  let request := status_request py_str access_token payout_batch_id in
  io_try
    (raw ← urlopen net request;
     body ← lift (utf8_decode raw);
     lift (json_loads body))
    (λ error,
       match error with
       | HTTPError code _ raw_body =>
           error_body ← lift (utf8_decode raw_body);
           raise (Chained
             (RuntimeError ("Fetch payout status failed: HTTP " +:+ Str.of_Z code
                            +:+ " " +:+ error_body))
             error)
       | _ =>
           raise (Chained
             (RuntimeError ("Fetch payout status failed: " +:+ exn_str error)) error)
       end).

(** [bool(session.get(a) and session.get(b))] *)
Definition has_session_creds (sess : gmap string string) : bool :=
  negb (missing (sess !! "paypal_client_id"))
  && negb (missing (sess !! "paypal_client_secret")).

(** The [/] route. *)
Definition index : IO response := λ w,
  let default_email := default "" (environ !! "DEFAULT_PAYOUT_EMAIL") in
  (Ok (Render "payout.html"
         (<["default_email" := JStr default_email]>
          {["has_session_creds" := JBool (has_session_creds (session w))]})), w).

(** The [/status/<batch_id>] route. *)
Definition payout_status (batch_id : string) : IO view :=
  io_try
    (client_id ← session_or_environ environ "paypal_client_id" "PAYPAL_CLIENT_ID";
     client_secret ← session_or_environ environ "paypal_client_secret"
                       "PAYPAL_CLIENT_SECRET";
     if missing client_id || missing client_secret then
       mret (Plain "Missing PAYPAL_CLIENT_ID or PAYPAL_CLIENT_SECRET in environment" 500)
     else
       token ← get_access_token net utf8_decode json_loads
                 (default "" client_id) (default "" client_secret);
       status ← get_payout_status token (JStr batch_id);
       mret (Page "status.html"
               (<["batch_id" := JStr batch_id]> {["status" := status]})))
    (λ error, mret (Plain (exn_str error) 500)).

(** [main], its result being the exit status of the process. *)
Definition main : CLI Z :=
  rand ← run_io (draw urandom);
  let payout_body := main_payout_body rand in
  cli_try
    (let CLIENT_ID := environ !! "PAYPAL_CLIENT_ID" in
     let CLIENT_SECRET := environ !! "PAYPAL_CLIENT_SECRET" in
     if missing CLIENT_ID || missing CLIENT_SECRET then
       run_io (raise (RuntimeError
         "Missing PAYPAL_CLIENT_ID or PAYPAL_CLIENT_SECRET environment variables"))
     else
       token ← run_io (get_access_token net utf8_decode json_loads
                         (default "" CLIENT_ID) (default "" CLIENT_SECRET));
       result ← run_io (create_payout net urandom utf8_decode json_loads json_dumps
                          py_str token payout_body true None);
       _ ← print (json_dumps (Some 2) result);
       payout_batch_id ← run_io (lift (_extract_batch_id result));
       if Py.truthy payout_batch_id then
         status ← run_io (get_payout_status token payout_batch_id);
         _ ← print (String Str.nl "Current payout batch status:");
         _ ← print (json_dumps (Some 2) status);
         mret 0
       else mret 0)
    (λ error,
       _ ← eprint (exn_str error);
       mret 1).

End Pages.

(** * Further properties *)

(** ** More on [parse_amounts] *)

(** The three characters that end a token. *)
Definition is_separator (c : ascii) : bool :=
  Ascii.eqb c "," || Ascii.eqb c Str.nl || Ascii.eqb c Str.cr.

(** Decimal digits, a point and exactly two more digits. *)
Definition is_two_decimal (s : string) : bool :=
  match Str.split "." s with
  | [whole; cents] =>
      Str.nonempty whole && Str.all Str.isdigit whole
      && (String.length cents =? 2)%nat && Str.all Str.isdigit cents
  | _ => false
  end.

(** The text with every separator turned into a line feed. *)
Definition normalized (raw : string) : string :=
  Str.replace "," Str.nl (Str.replace Str.cr Str.nl raw).

Lemma normalized_replace (a b : ascii) (raw : string) :
  is_separator a = true → is_separator b = true →
  normalized (Str.replace a b raw) = normalized raw.
Proof.
  unfold is_separator, normalized. intros Ha Hb.
  induction raw as [|c raw IH]; [done|]. cbn [Str.replace]. rewrite IH. f_equal.
  destruct (Ascii.eqb_spec c a) as [->|Hca].
  - repeat (apply orb_true_iff in Ha as [Ha|Ha]);
      repeat (apply orb_true_iff in Hb as [Hb|Hb]);
      apply Ascii.eqb_eq in Ha, Hb; subst; reflexivity.
  - reflexivity.
Qed.

Lemma replace_app (a b : ascii) (s t : string) :
  Str.replace a b (s +:+ t) = Str.replace a b s +:+ Str.replace a b t.
Proof.
  induction s as [|c s IH]; [done|].
  change (String c s +:+ t) with (String c (s +:+ t)). cbn [Str.replace].
  by rewrite IH.
Qed.

Lemma split_nonempty (sep : ascii) (s : string) : Str.split sep s ≠ [].
Proof.
  destruct s as [|c s]; [done|]. cbn [Str.split].
  destruct (Ascii.eqb c sep); [done|]. by destruct (Str.split sep s).
Qed.

Lemma split_app (sep : ascii) (s t : string) :
  Str.split sep (s +:+ String sep t) = Str.split sep s ++ Str.split sep t.
Proof.
  induction s as [|c s IH].
  - change (EmptyString +:+ String sep t) with (String sep t).
    cbn [Str.split]. by rewrite Ascii.eqb_refl.
  - change (String c s +:+ String sep t) with (String c (s +:+ String sep t)).
    cbn [Str.split]. rewrite IH.
    destruct (Ascii.eqb c sep); [done|].
    pose proof (split_nonempty sep s). by destruct (Str.split sep s).
Qed.

Lemma tokens_app (a b : string) (sep : ascii) :
  is_separator sep = true →
  tokens (a +:+ String sep b) = tokens a ++ tokens b.
Proof.
  intros Hsep. unfold tokens, tokens_of, pieces_of.
  fold (normalized (a +:+ String sep b)) (normalized a) (normalized b).
  assert (normalized (a +:+ String sep b)
          = normalized a +:+ String Str.nl (normalized b)) as ->.
  { unfold normalized. rewrite !replace_app. cbn [Str.replace]. do 2 f_equal.
    unfold is_separator in Hsep.
    repeat (apply orb_true_iff in Hsep as [Hsep|Hsep]);
      apply Ascii.eqb_eq in Hsep; subst; reflexivity. }
  by rewrite split_app, List.map_app, List.filter_app.
Qed.

Lemma find_bad_app (ts us : list string) :
  List.find bad_token (ts ++ us) =
    match List.find bad_token ts with
    | Some t => Some t
    | None => List.find bad_token us
    end.
Proof.
  induction ts as [|t ts IH]; [done|]. cbn. by destruct (bad_token t).
Qed.

Lemma omap_amount_app (ts us : list string) :
  omap amount_of (ts ++ us) = omap amount_of ts ++ omap amount_of us.
Proof.
  induction ts as [|t ts IH]; [done|]. cbn. rewrite IH. by destruct (amount_of t).
Qed.

Lemma parse_amounts_ok_inv (raw : string) (amounts : list string) :
  parse_amounts raw = Ok amounts →
  List.find bad_token (tokens raw) = None ∧ tokens raw ≠ []
  ∧ amounts = omap amount_of (tokens raw).
Proof.
  rewrite parse_amounts_spec.
  destruct (List.find bad_token (tokens raw)); [done|].
  destruct (tokens raw) eqn:Ht; [done|]. intros Heq.
  split_and!; [done|done|]. by injection Heq.
Qed.

(** X1: commas, line feeds and carriage returns are interchangeable:
    turning one separator into another changes nothing in what parse_amounts
    returns or raises. *)
Theorem X1_parse_amounts_separators (a b : ascii) (raw : string)
    (Ha : is_separator a = true) (Hb : is_separator b = true) :
  parse_amounts (Str.replace a b raw) = parse_amounts raw.
Proof.
  unfold parse_amounts, pieces_of.
  fold (normalized (Str.replace a b raw)) (normalized raw).
  by rewrite normalized_replace.
Qed.

Lemma X1_parse_amounts_separators_witness :
  parse_amounts (Str.replace "," Str.nl "5,7.5") = parse_amounts "5,7.5".
Proof.
  apply (X1_parse_amounts_separators "," Str.nl "5,7.5"); reflexivity.
Defined.

(** X2: two texts that parse, joined by a separator, parse to the two
    results one after the other. *)
Theorem X2_parse_amounts_join (a b : string) (sep : ascii) (xs ys : list string)
    (Hsep : is_separator sep = true)
    (Ha : parse_amounts a = Ok xs) (Hb : parse_amounts b = Ok ys) :
  parse_amounts (a +:+ String sep b) = Ok (xs ++ ys).
Proof.
  apply parse_amounts_ok_inv in Ha as (Hfa & Hna & ->).
  apply parse_amounts_ok_inv in Hb as (Hfb & Hnb & ->).
  rewrite parse_amounts_spec, (tokens_app _ _ _ Hsep), find_bad_app, Hfa, Hfb.
  rewrite omap_amount_app. destruct (tokens a); [done|]. reflexivity.
Qed.

Lemma X2_parse_amounts_join_witness :
  parse_amounts ("5" +:+ String "," "7.5") = Ok (["5.00"] ++ ["7.50"]).
Proof.
  apply (X2_parse_amounts_join "5" "7.5" "," ["5.00"] ["7.50"]); reflexivity.
Defined.

Lemma invalid_amount_head (t : string) :
  "Invalid amount: " +:+ t = String "I" ("nvalid amount: " +:+ t).
Proof. reflexivity. Qed.

Lemma parse_amounts_invalid_inv (raw t : string) :
  parse_amounts raw = Raise (ValueError ("Invalid amount: " +:+ t)) →
  List.find bad_token (tokens raw) = Some t.
Proof.
  rewrite parse_amounts_spec.
  destruct (List.find bad_token (tokens raw)) as [t'|].
  - intros Heq. injection Heq as Heq. by apply (inj (String.app _)) in Heq as ->.
  - destruct (tokens raw); [|done]. rewrite invalid_amount_head. discriminate.
Qed.

Lemma parse_amounts_none_inv (raw : string) :
  parse_amounts raw = Raise (ValueError "At least one amount is required") →
  tokens raw = [].
Proof.
  rewrite parse_amounts_spec.
  destruct (List.find bad_token (tokens raw)) as [t'|].
  - rewrite invalid_amount_head. discriminate.
  - by destruct (tokens raw).
Qed.

(** X3: how errors combine when two texts are joined by a separator.  An
    invalid token in the first text is reported whatever follows; a first
    text without any token is skipped; after a first text that parses, an
    invalid token of the second is reported, and a second text without any
    token changes nothing. *)
Theorem X3_parse_amounts_join_errors (a b : string) (sep : ascii)
    (Hsep : is_separator sep = true) :
  (∀ t, parse_amounts a = Raise (ValueError ("Invalid amount: " +:+ t)) →
        parse_amounts (a +:+ String sep b) = Raise (ValueError ("Invalid amount: " +:+ t)))
  ∧ (parse_amounts a = Raise (ValueError "At least one amount is required") →
       parse_amounts (a +:+ String sep b) = parse_amounts b)
  ∧ (∀ xs t, parse_amounts a = Ok xs →
       parse_amounts b = Raise (ValueError ("Invalid amount: " +:+ t)) →
       parse_amounts (a +:+ String sep b) = Raise (ValueError ("Invalid amount: " +:+ t)))
  ∧ (∀ xs, parse_amounts a = Ok xs →
       parse_amounts b = Raise (ValueError "At least one amount is required") →
       parse_amounts (a +:+ String sep b) = Ok xs).
Proof.
  split_and!.
  - intros t Ha%parse_amounts_invalid_inv.
    by rewrite parse_amounts_spec, (tokens_app _ _ _ Hsep), find_bad_app, Ha.
  - intros Ha%parse_amounts_none_inv.
    by rewrite !parse_amounts_spec, (tokens_app _ _ _ Hsep), Ha.
  - intros xs t (Hfa & _ & _)%parse_amounts_ok_inv Hb%parse_amounts_invalid_inv.
    by rewrite parse_amounts_spec, (tokens_app _ _ _ Hsep), find_bad_app, Hfa, Hb.
  - intros xs Ha Hb%parse_amounts_none_inv.
    rewrite parse_amounts_spec, (tokens_app _ _ _ Hsep), Hb, app_nil_r.
    by rewrite <- parse_amounts_spec.
Qed.

Lemma X3_parse_amounts_join_errors_witness :
  parse_amounts ("" +:+ String "," "7.5") = parse_amounts "7.5".
Proof.
  destruct (X3_parse_amounts_join_errors "" "7.5" ",") as (_ & Hskip & _);
    [reflexivity|].
  apply Hskip. reflexivity.
Defined.

Lemma string_of_uint_digits (d : Decimal.uint) :
  Str.all Str.isdigit (NilEmpty.string_of_uint d) = true.
Proof. induction d; cbn [NilEmpty.string_of_uint Str.all]; by rewrite ?IHd. Qed.

Lemma of_N_nonempty (n : N) : Str.nonempty (Str.of_N n) = true.
Proof.
  unfold Str.of_N. destruct n as [|p]; [done|]. cbn [N.to_uint].
  pose proof (DecimalPos.Unsigned.to_uint_nonnil p) as Hnil.
  by destruct (Pos.to_uint p).
Qed.

Lemma zfill2_shape (r : N) :
  (r < 100)%N →
  String.length (Str.zfill 2 (Str.of_N r)) = 2%nat
  ∧ Str.all Str.isdigit (Str.zfill 2 (Str.of_N r)) = true.
Proof.
  intros Hlt.
  assert (Hall : forallb (λ n, (String.length (Str.zfill 2 (Str.of_N (N.of_nat n))) =? 2)%nat
                               && Str.all Str.isdigit (Str.zfill 2 (Str.of_N (N.of_nat n))))
                   (seq 0 100) = true) by (by vm_compute).
  rewrite forallb_forall in Hall.
  specialize (Hall (N.to_nat r)). rewrite N2Nat.id in Hall.
  assert (Hin : In (N.to_nat r) (seq 0 100)) by (apply in_seq; lia).
  apply Hall, andb_true_iff in Hin as [Hlen Hdig].
  by apply Nat.eqb_eq in Hlen.
Qed.

Lemma split_no_sep (sep : ascii) (s : string) :
  Str.all (λ c, negb (Ascii.eqb c sep)) s = true → Str.split sep s = [s].
Proof.
  induction s as [|c s IH]; [done|]. cbn [Str.all Str.split].
  intros [Hc Hs]%andb_true_iff. rewrite (IH Hs).
  by destruct (Ascii.eqb c sep).
Qed.

Lemma digits_no_dot (s : string) :
  Str.all Str.isdigit s = true → Str.all (λ c, negb (Ascii.eqb c ".")) s = true.
Proof.
  induction s as [|c s IH]; [done|]. cbn [Str.all].
  intros [Hc Hs]%andb_true_iff. rewrite (IH Hs), andb_true_r.
  destruct (Ascii.eqb_spec c ".") as [->|]; [discriminate|done].
Qed.

Lemma two_decimal_intro (whole cents : string) :
  Str.nonempty whole = true → Str.all Str.isdigit whole = true →
  String.length cents = 2%nat → Str.all Str.isdigit cents = true →
  is_two_decimal (whole +:+ String "." cents) = true.
Proof.
  intros Hne Hw Hlen Hc. unfold is_two_decimal.
  rewrite split_app, !split_no_sep by by apply digits_no_dot.
  cbn [app]. by rewrite Hne, Hw, Hlen, Hc.
Qed.

Lemma format_2f_shape (x : spec_float) :
  Float.leb x Float.zero = false →
  Float.format_2f x = "nan" ∨ Float.format_2f x = "inf"
  ∨ is_two_decimal (Float.format_2f x) = true.
Proof.
  destruct x as [s|s| |s m e]; intros Hle.
  - by destruct s.
  - destruct s; [done|]. by right; left.
  - by left.
  - destruct s; [done|]. right; right. cbn [Float.format_2f Float.sign_str].
    set (q := if 0 <=? e then _ else _).
    change ("" +:+ Str.of_N (Z.to_N (q / 100)) +:+ "."
            +:+ Str.zfill 2 (Str.of_N (Z.to_N (q mod 100))))
      with (Str.of_N (Z.to_N (q / 100))
            +:+ String "." (Str.zfill 2 (Str.of_N (Z.to_N (q mod 100))))).
    assert (Hr : (Z.to_N (q mod 100) < 100)%N)
      by (pose proof (Z.mod_pos_bound q 100); lia).
    apply two_decimal_intro.
    + apply of_N_nonempty.
    + apply string_of_uint_digits.
    + by apply zfill2_shape.
    + by apply zfill2_shape.
Qed.

(** X4: every amount parse_amounts returns is "nan", "inf", or decimal
    digits, a point and exactly two digits: never a sign, an exponent or
    another number of decimals. *)
Theorem X4_parse_amounts_output_shape (raw : string) (amounts : list string)
    (Hok : parse_amounts raw = Ok amounts) :
  ∀ amount, In amount amounts →
    amount = "nan" ∨ amount = "inf" ∨ is_two_decimal amount = true.
Proof.
  apply parse_amounts_ok_inv in Hok as (_ & _ & ->).
  intros amount Hin. apply list_elem_of_In, list_elem_of_omap in Hin as (t & _ & Ht).
  unfold amount_of in Ht.
  destruct (Float.of_string t) as [amt|]; [|done].
  destruct (Float.leb amt Float.zero) eqn:Hle; [done|].
  injection Ht as <-. by apply format_2f_shape.
Qed.

Lemma X4_parse_amounts_output_shape_witness :
  "20.50" = "nan" ∨ "20.50" = "inf" ∨ is_two_decimal "20.50" = true.
Proof.
  apply (X4_parse_amounts_output_shape sample_amounts ["10.00"; "20.50"; "0.99"]).
  - by vm_compute.
  - right; left; reflexivity.
Defined.

(** ** More on [build_payout_body] and [_generate_sender_batch_id] *)

Lemma item_id_inj (a b : N) : item_id a = item_id b → a = b.
Proof.
  intros Heq. apply (f_equal item_number) in Heq.
  rewrite !item_number_id in Heq. by injection Heq.
Qed.

(** X5: within one document the sender_item_id values are pairwise
    distinct, however many amounts there are. *)
Theorem X5_sender_item_ids_distinct
    (rand : Z) (email : string) (amounts : list string)
    (currency subject message : string)
    (items : list json) (i j : nat) (item_i item_j : json)
    (Hitems : field (build_payout_body rand email amounts currency subject message)
                "items" = Some (JList items))
    (Hi : items !! i = Some item_i) (Hj : items !! j = Some item_j)
    (Hsame : field item_i "sender_item_id" = field item_j "sender_item_id") :
  i = j.
Proof.
  unfold build_payout_body, field in Hitems.
  rewrite lookup_insert_ne, lookup_singleton_eq in Hitems by done.
  injection Hitems as <-. rewrite build_items_spec in Hi, Hj. cbn [app] in Hi, Hj.
  rewrite list_lookup_imap in Hi, Hj.
  destruct (amounts !! i) as [ai|]; [|done].
  destruct (amounts !! j) as [aj|]; [|done].
  injection Hi as <-. injection Hj as <-.
  unfold payout_item, field in Hsame.
  rewrite !(lookup_insert_ne _ "amount" "sender_item_id"), !lookup_insert_eq in Hsame
    by done.
  injection Hsame as Hsame. apply (inj (String.app _)) in Hsame.
  assert (Hn : (1 + N.of_nat i = 1 + N.of_nat j)%N).
  { apply item_id_inj. unfold item_id. by rewrite Hsame. }
  lia.
Qed.

Lemma X5_sender_item_ids_distinct_witness : 1%nat = 1%nat.
Proof.
  apply (X5_sender_item_ids_distinct 0 "a@b.com" ["5.00"; "10.00"] "USD" "s" "m"
           (build_items "a@b.com" "USD" 1 ["5.00"; "10.00"] []) 1 1
           (payout_item "a@b.com" "USD" 2 "10.00") (payout_item "a@b.com" "USD" 2 "10.00"));
    reflexivity.
Defined.

Lemma take_hex_digits (n k : nat) (v : Z) :
  Uuid.take n (Uuid.hex_digits (n + k) v)
  = Uuid.hex_digits n (Z.shiftr v (4 * Z.of_nat k)).
Proof.
  induction n as [|n IH]; [by destruct (Uuid.hex_digits (0 + k) v)|].
  cbn [Nat.add Uuid.hex_digits Uuid.take]. rewrite IH. f_equal. f_equal. f_equal.
  rewrite Z.shiftr_shiftr by lia. f_equal. lia.
Qed.

Lemma random_suffix_high (rand : Z) :
  random_suffix rand = Uuid.hex_digits 16 (Z.shiftr (Uuid.uuid4 rand) 64).
Proof. exact (take_hex_digits 16 16 (Uuid.uuid4 rand)). Qed.

Lemma uuid4_shiftr (rand n : Z) :
  Z.shiftr (Uuid.uuid4 rand) n =
    Z.lor (Z.land (Z.lor (Z.land (Z.shiftr rand n)
                            (Z.shiftr (Z.lnot (Z.shiftl 0xc000 48)) n))
                     (Z.shiftr (Z.shiftl 0x8000 48) n))
             (Z.shiftr (Z.lnot (Z.shiftl 0xf000 64)) n))
      (Z.shiftr (Z.shiftl 4 76) n).
Proof.
  unfold Uuid.uuid4. cbv zeta.
  by rewrite !Z.shiftr_lor, !Z.shiftr_land, !Z.shiftr_lor, !Z.shiftr_land.
Qed.

(** X6: the batch identifier uses the upper half of the random draw only:
    two draws that agree on their upper 64 bits give the same
    sender_batch_id, whatever their lower 64 bits are. *)
Theorem X6_sender_batch_id_ignores_low_bits (rand1 rand2 : Z)
    (Hhigh : Z.shiftr rand1 64 = Z.shiftr rand2 64) :
  _generate_sender_batch_id rand1 = _generate_sender_batch_id rand2.
Proof.
  rewrite !generate_sender_batch_id_suffix, !random_suffix_high, !uuid4_shiftr.
  by rewrite Hhigh.
Qed.

Lemma X6_sender_batch_id_ignores_low_bits_witness :
  _generate_sender_batch_id 0 = _generate_sender_batch_id (2 ^ 64 - 1).
Proof. apply X6_sender_batch_id_ignores_low_bits. reflexivity. Defined.

Lemma version_nibble (rand : Z) :
  Z.land (Z.shiftr (Uuid.uuid4 rand) 76) 15 = 4.
Proof.
  rewrite uuid4_shiftr.
  change (Z.shiftr (Z.shiftl 4 76) 76) with 4.
  change (Z.shiftr (Z.lnot (Z.shiftl 0xf000 64)) 76) with (-16).
  rewrite Z.land_lor_distr_l, <- Z.land_assoc.
  change (Z.land (-16) 15) with 0. by rewrite Z.land_0_r.
Qed.

(** A lower-case hexadecimal digit. *)
Definition is_hex (c : ascii) : bool :=
  let n := Z.of_nat (nat_of_ascii c) in
  ((48 <=? n) && (n <=? 57)) || ((97 <=? n) && (n <=? 102)).

Lemma hex_digit_is_hex (x : Z) : is_hex (Uuid.hex_digit (Z.land x 15)) = true.
Proof.
  change 15 with (Z.ones 4). rewrite Z.land_ones by lia.
  pose proof (Z.mod_pos_bound x (2 ^ 4)) as Hb.
  assert (Hcases : ∃ k : nat, x mod 2 ^ 4 = Z.of_nat k ∧ (k < 16)%nat).
  { exists (Z.to_nat (x mod 2 ^ 4)). lia. }
  destruct Hcases as (k & -> & Hk).
  do 16 (destruct k as [|k]; [reflexivity|]). lia.
Qed.

Lemma hex_digits_are_hex (n : nat) (v : Z) :
  Str.all is_hex (Uuid.hex_digits n v) = true.
Proof.
  induction n as [|n IH]; [done|]. cbn [Uuid.hex_digits Str.all].
  by rewrite hex_digit_is_hex, IH.
Qed.

(** X7: a batch identifier is always 19 characters long: "SB-" and sixteen
    lower-case hexadecimal digits, the thirteenth of which is always "4",
    the version digit of the UUID, and carries no randomness. *)
Theorem X7_sender_batch_id_shape (rand : Z) :
  String.length (_generate_sender_batch_id rand) = 19%nat
  ∧ _generate_sender_batch_id rand = "SB-" +:+ random_suffix rand
  ∧ Str.all is_hex (random_suffix rand) = true
  ∧ String.get 15 (_generate_sender_batch_id rand) = Some "4"%char.
Proof.
  split_and!.
  - reflexivity.
  - reflexivity.
  - rewrite random_suffix_high. apply hex_digits_are_hex.
  - change (String.get 15 (_generate_sender_batch_id rand))
      with (Some (Uuid.hex_digit (Z.land (Z.shiftr (Uuid.uuid4 rand) 76) 15))).
    by rewrite version_nibble.
Qed.

(** ** More on [_extract_batch_id] *)

(** The links of a response are absent, false, or a list of links as the
    provider documents them. *)
Definition links_well_formed (response : gmap string json) : bool :=
  match response !! "links" with
  | None => true
  | Some (JList links) => forallb link_ok links
  | Some v => negb (Py.truthy v)
  end.

Lemma first_payouts_link_cases (links : list json) :
  first_payouts_link links = JNull ∨ ∃ s, first_payouts_link links = JStr s.
Proof.
  induction links as [|link rest IH]; [by left|]. cbn.
  destruct (payouts_href link); [right; by eexists|done].
Qed.

Lemma from_links_falsy (response : gmap string json) (v : json) :
  response !! "links" = Some v → Py.truthy v = false →
  from_links response = Ok JNull.
Proof.
  intros Hlinks Hv. unfold from_links, links_of, Py.get_default, Py.or.
  rewrite Hlinks. cbn [from_option id]. by rewrite Hv.
Qed.

Lemma from_links_well_formed (response : gmap string json) :
  links_well_formed response = true →
  ∃ links, from_links response = Ok (first_payouts_link links).
Proof.
  unfold links_well_formed. intros Hwf.
  destruct (response !! "links") as [v|] eqn:Hlinks.
  - destruct v as [|b|n|x|s|links|d];
      try (exists []; apply negb_true_iff in Hwf;
           exact (from_links_falsy _ _ Hlinks Hwf)).
    exists links. by apply from_links_list.
  - exists []. apply from_links_absent. by left.
Qed.

(** X8: on a response whose links are absent, false, or a list of objects
    with a string or null href, _extract_batch_id never raises, whatever the
    batch header holds: it returns the true identifier of the header, or
    else None or the last path component of a payouts link. *)
Theorem X8_extract_batch_id_well_formed (response : gmap string json)
    (Hwf : links_well_formed response = true) :
  ∃ v, _extract_batch_id (JDict response) = Ok v
    ∧ (v = JNull ∨ (∃ s, v = JStr s)
       ∨ ∃ bh, batch_header_of response = JDict bh
               ∧ v = payout_batch_id_of bh ∧ Py.truthy v = true).
Proof.
  destruct (from_links_well_formed response Hwf) as [links Hlinks].
  assert (Hfall : ∃ v, from_links response = Ok v ∧ (v = JNull ∨ ∃ s, v = JStr s)).
  { eexists. split; [done|]. apply first_payouts_link_cases. }
  destruct Hfall as (v & Hv & Hcases).
  destruct (batch_header_of response) as [| | | | | |bh] eqn:Hheader;
    try (exists v; rewrite extract_without_header by (intros bh; congruence);
         split; [done|]; destruct Hcases; [by left|by right; left]).
  destruct (Py.truthy (payout_batch_id_of bh)) eqn:Hid.
  - exists (payout_batch_id_of bh). split; [by apply extract_with_id|].
    right; right. by exists bh.
  - exists v. rewrite (extract_without_id _ _ Hheader Hid). split; [done|].
    destruct Hcases; [by left|by right; left].
Qed.

Lemma X8_extract_batch_id_well_formed_witness :
  ∃ v, _extract_batch_id (JDict falsy_id_response) = Ok v
    ∧ (v = JNull ∨ (∃ s, v = JStr s)
       ∨ ∃ bh, batch_header_of falsy_id_response = JDict bh
               ∧ v = payout_batch_id_of bh ∧ Py.truthy v = true).
Proof. apply X8_extract_batch_id_well_formed. reflexivity. Defined.

(** X19: the snake-case spellings come first and the links last.  A
    "batch_header" that is a dict with a true "payout_batch_id" decides the
    result: "batchHeader", "payoutBatchId" and the links are not looked at,
    so links of any shape cannot make the call raise. *)
Theorem X19_extract_batch_id_precedence
    (response bh : gmap string json) (id : json)
    (Hheader : response !! "batch_header" = Some (JDict bh))
    (Hid : bh !! "payout_batch_id" = Some id)
    (Htruthy : Py.truthy id = true) :
  _extract_batch_id (JDict response) = Ok id
  ∧ ∀ other links, _extract_batch_id
      (JDict (<["links" := links]> (<["batchHeader" := other]> response))) = Ok id.
Proof.
  assert (Hne : bh ≠ ∅) by (intros ->; by rewrite lookup_empty in Hid).
  assert (Hgen : ∀ r : gmap string json, r !! "batch_header" = Some (JDict bh) →
                 _extract_batch_id (JDict r) = Ok id).
  { intros r Hr. rewrite (extract_with_id r bh).
    - unfold payout_batch_id_of, Py.or, Py.get. rewrite Hid. cbn. by rewrite Htruthy.
    - unfold batch_header_of, Py.or, Py.get. rewrite Hr. cbn.
      by rewrite bool_decide_eq_false_2.
    - unfold payout_batch_id_of, Py.or, Py.get. rewrite Hid. cbn. by rewrite Htruthy. }
  split; [by apply Hgen|]. intros other links. apply Hgen.
  by rewrite !lookup_insert_ne.
Qed.

Lemma X19_extract_batch_id_precedence_witness :
  _extract_batch_id
    (JDict (<["batch_header" := JDict {["payout_batch_id" := JStr "X"]}]>
            {["links" := JList [JStr "bad"]]})) = Ok (JStr "X").
Proof.
  destruct (X19_extract_batch_id_precedence
              (<["batch_header" := JDict {["payout_batch_id" := JStr "X"]}]>
               {["links" := JList [JStr "bad"]]})
              {["payout_batch_id" := JStr "X"]} (JStr "X")) as [Hfirst _];
    [reflexivity..|].
  exact Hfirst.
Defined.

(** ** [create_payout] and [get_payout_status] *)

(** What [create_payout] and [get_payout_status] raise from a cause: the
    status and the decoded body of an [HTTPError], the text of any other
    error; a body that does not decode lets the decoding error through. *)
Definition remote_error (what : string) (utf8_decode : string → result string)
    (error : exn) : result json :=
  match error with
  | HTTPError code _ raw_body =>
      match utf8_decode raw_body with
      | Ok error_body =>
          Raise (Chained
            (RuntimeError (what +:+ ": HTTP " +:+ Str.of_Z code +:+ " " +:+ error_body))
            error)
      | Raise e => Raise e
      end
  | _ => Raise (Chained (RuntimeError (what +:+ ": " +:+ exn_str error)) error)
  end.

(** What both make of the reply to their request. *)
Definition document_of_reply (what : string) (utf8_decode : string → result string)
    (json_loads : string → result json) (r : reply) : result json :=
  match r with
  | NoReply reason => remote_error what utf8_decode (URLError reason)
  | Reply status reason body =>
      if is_2xx status then
        match (text ← utf8_decode body; json_loads text) with
        | Ok document => Ok document
        | Raise e => remote_error what utf8_decode e
        end
      else remote_error what utf8_decode (HTTPError status reason body)
  end.

(** The identifier [create_payout] sends as [PayPal-Request-Id]: the one it
    is given, or a fresh one from [rand] when it is given none or an empty
    one. *)
Definition request_id_of (request_id : option string) (rand : Z) : string :=
  match request_id with
  | Some rid => if Str.nonempty rid then rid else "req-" +:+ Uuid.hex (Uuid.uuid4 rand)
  | None => "req-" +:+ Uuid.hex (Uuid.uuid4 rand)
  end.

Definition draws_request_id (request_id : option string) : bool :=
  match request_id with
  | Some rid => negb (Str.nonempty rid)
  | None => true
  end.

(** The request [create_payout] builds. *)
Definition payout_request (json_dumps : option Z → json → string) (py_str : json → string)
    (access_token payout_payload : json) (prefer_async : bool) (rid : string) : request :=
  let url := if prefer_async then PAYOUTS_URL else PAYOUTS_URL +:+ "?sync_mode=true" in
  let request :=
    add_header "Accept" "application/json"
      (add_header "Content-Type" "application/json"
        (add_header "Authorization" ("Bearer " +:+ py_str access_token)
          (Request url (Some (Codec.utf8_encode (json_dumps None payout_payload)))
                   "POST" ∅))) in
  let request :=
    if prefer_async then add_header "Prefer" "respond-async" request else request in
  add_header "PayPal-Request-Id" rid request.

(** What [http.client] asks of a request before it sends anything.  A
    request that fails one of these checks never reaches the network:
    [urlopen] raises from the check itself ([InvalidURL], [ValueError] or
    [UnicodeEncodeError]) and not a [URLError] or an [HTTPError].  [urlopen]
    above describes a request that goes out, so a statement about a request
    target or a header value that the caller chooses freely carries the
    checks as hypotheses. *)
Module Http.





End Http.

Section RemoteCalls.

Variable net : request → reply.
Variable urandom : nat → Z.
Variable utf8_decode : string → result string.
Variable json_loads : string → result json.
Variable json_dumps : option Z → json → string.
Variable py_str : json → string.

Lemma create_payout_run (access_token payout_payload : json) (prefer_async : bool)
    (request_id : option string) (w : world) :
  let request :=
    payout_request json_dumps py_str access_token payout_payload prefer_async
      (request_id_of request_id (urandom (draws w))) in
  create_payout net urandom utf8_decode json_loads json_dumps py_str
    access_token payout_payload prefer_async request_id w =
    (document_of_reply "PayPal payout failed" utf8_decode json_loads (net request),
     World (session w) (flashed w) (sent w ++ [request])
           (if draws_request_id request_id then S (draws w) else draws w)).
Proof.
  intros request. subst request.
  unfold create_payout, payout_request, request_id_of, draws_request_id,
    io_try, urlopen, uuid4_hex, document_of_reply, remote_error.
  cbv [mbind IO_bind result_bind mret IO_ret raise lift].
  destruct request_id as [rid|]; [destruct (Str.nonempty rid)|];
    cbn [negb session flashed sent draws];
    (match goal with |- context [net ?r] => destruct (net r) as [reason|status reason raw] end;
     [reflexivity|]);
    (destruct (is_2xx status); [|by destruct (utf8_decode raw)]);
    (destruct (utf8_decode raw) as [text|e];
     [destruct (json_loads text) as [document|e]; [reflexivity|]|]);
    destruct e; try reflexivity;
    match goal with |- context [utf8_decode ?b] => by destruct (utf8_decode b) end.
Qed.

Lemma get_payout_status_run (access_token payout_batch_id : json) (w : world) :
  let request := status_request py_str access_token payout_batch_id in
  get_payout_status net utf8_decode json_loads py_str access_token payout_batch_id w =
    (document_of_reply "Fetch payout status failed" utf8_decode json_loads (net request),
     World (session w) (flashed w) (sent w ++ [request]) (draws w)).
Proof.
  intros request. subst request.
  unfold get_payout_status, io_try, urlopen, document_of_reply, remote_error.
  cbv [mbind IO_bind result_bind mret IO_ret raise lift].
  destruct (net _) as [reason|status reason raw]; [reflexivity|].
  destruct (is_2xx status); [|by destruct (utf8_decode raw)].
  destruct (utf8_decode raw) as [text|e];
    [destruct (json_loads text) as [document|e]; [reflexivity|]|];
    destruct e; try reflexivity;
    match goal with |- context [utf8_decode ?b] => by destruct (utf8_decode b) end.
Qed.




End RemoteCalls.

(** ** The routes, one after the other *)

Definition form_client_id (form : gmap string string) : string :=
  form_get form "client_id" "".
Definition form_client_secret (form : gmap string string) : string :=
  form_get form "client_secret" "".

Definition redirect_index : result response := Ok (Redirect "index" ∅).

Section PageProperties.

Variable net : request → reply.
Variable urandom : nat → Z.
Variable utf8_decode : string → result string.
Variable json_loads : string → result json.
Variable json_dumps : option Z → json → string.
Variable py_str : json → string.
Variable str_upper : string → string.
Variable environ : gmap string string.

Local Abbreviation route :=
  (create_payout_route net urandom utf8_decode json_loads json_dumps py_str
     str_upper environ).
Local Abbreviation status_page :=
  (payout_status net utf8_decode json_loads py_str environ).
Local Abbreviation client_id_in sess :=
  (default "" (session_or_environ_in environ sess "paypal_client_id" "PAYPAL_CLIENT_ID")).
Local Abbreviation client_secret_in sess :=
  (default "" (session_or_environ_in environ sess "paypal_client_secret"
                 "PAYPAL_CLIENT_SECRET")).

(** The document the [/payout] route builds from a form. *)
Definition route_body (form : gmap string string) (amounts : list string) (rand : Z)
  : json :=
  build_payout_body rand (form_get form "email" "") amounts
    (or_default (str_upper (form_get form "currency" "USD")) "USD")
    (or_default (form_get form "subject" default_subject) default_subject)
    (or_default (form_get form "message" default_message) default_message).

(** A run of the [/payout] route, case by case. *)
Definition route_outcome (form : gmap string string) (w : world)
  : result response * world :=
  let sess := session_with_form form (session w) in
  let w1 := World sess (flashed w) (sent w) (draws w) in
  if credentials_given environ sess then
    if Str.nonempty (form_get form "email" "") then
      match parse_amounts (form_get form "amounts" "") with
      | Raise e => (redirect_index, flashes w1 (exn_str e) "error")
      | Ok amounts =>
          let body := route_body form amounts (urandom (draws w)) in
          let oauth := oauth_request (client_id_in sess) (client_secret_in sess) in
          let w2 := World sess (flashed w) (sent w ++ [oauth]) (S (draws w)) in
          match token_of_reply utf8_decode json_loads (net oauth) with
          | Raise e => (redirect_index, flashes w2 (exn_str e) "error")
          | Ok token =>
              let submit :=
                payout_request json_dumps py_str token body true
                  ("req-" +:+ Uuid.hex (Uuid.uuid4 (urandom (S (draws w))))) in
              let w3 := World sess (flashed w) ((sent w ++ [oauth]) ++ [submit])
                          (S (S (draws w))) in
              match document_of_reply "PayPal payout failed" utf8_decode json_loads
                      (net submit) with
              | Raise e => (redirect_index, flashes w3 (exn_str e) "error")
              | Ok document =>
                  match _extract_batch_id document with
                  | Raise e => (redirect_index, flashes w3 (exn_str e) "error")
                  | Ok batch_id =>
                      if Py.truthy batch_id
                      then (Ok (Redirect "payout_status" {["batch_id" := batch_id]}), w3)
                      else (Ok (Render "result.html"
                                  (<["result_json" := JStr (json_dumps (Some 2) document)]>
                                   {["batch_id" := JNull]})),
                            flashes w3 "Payout created but no batch id returned" "warning")
                  end
              end
          end
      end
    else (redirect_index, flashes w1 "Recipient email is required" "error")
  else (redirect_index,
        flashes w1
          "Provide PayPal Client ID/Secret in the form or set environment variables."
          "error").

Lemma route_run (form : gmap string string) (w : world) :
  route form w = route_outcome form w.
Proof.
  unfold create_payout_route, route_outcome, io_try, credentials_given,
    session_with_form, flashes, redirect_index, route_body.
  cbv [mbind IO_bind mret IO_ret raise lift session_set flash session_or_environ draw].
  cbn [session flashed sent draws].
  destruct (Str.nonempty (form_get form "client_id" "")
            && Str.nonempty (form_get form "client_secret" ""));
    cbn [session flashed sent draws];
    (destruct (missing _ || missing _); cbn [negb]; [reflexivity|]);
    (destruct (Str.nonempty (form_get form "email" "")); cbn [negb]; [|reflexivity]);
    (destruct (parse_amounts _) as [amounts|e]; [|reflexivity]);
    rewrite get_access_token_run;
    (destruct (token_of_reply _ _ _) as [token|e]; [|reflexivity]);
    rewrite create_payout_run; cbn [request_id_of draws_request_id draws sent];
    (destruct (document_of_reply _ _ _ _) as [document|e]; [|reflexivity]);
    (destruct (_extract_batch_id document) as [batch_id|e]; [|reflexivity]);
    destruct (Py.truthy batch_id); reflexivity.
Qed.

Lemma route_session (form : gmap string string) (w : world) :
  session (route form w).2 = session_with_form form (session w).
Proof.
  rewrite route_run. unfold route_outcome, redirect_index, flashes.
  by repeat case_match.
Qed.

(** X12: what every run of the /payout route keeps to.  The session
    changes by the credentials of the form and nothing else; at most two
    requests are sent and at most two draws made, so nothing is retried; and
    the response goes with the flashed messages: a redirect to the status
    page flashes nothing, a redirect to the index flashes exactly one error,
    and the result page flashes exactly the one warning. *)
Theorem X12_route_invariants (form : gmap string string) (w : world) :
  let run := route form w in
  session run.2 = session_with_form form (session w)
  ∧ (∃ new, sent run.2 = sent w ++ new ∧ (length new ≤ 2)%nat)
  ∧ (draws w ≤ draws run.2 ≤ draws w + 2)%nat
  ∧ ((∃ batch_id, run.1 = Ok (Redirect "payout_status" {["batch_id" := batch_id]})
                  ∧ Py.truthy batch_id = true ∧ flashed run.2 = flashed w)
     ∨ (run.1 = Ok (Redirect "index" ∅)
        ∧ ∃ message, flashed run.2 = flashed w ++ [(message, "error")])
     ∨ (∃ context, run.1 = Ok (Render "result.html" context)
                   ∧ context !! "batch_id" = Some JNull
                   ∧ flashed run.2
                     = flashed w ++ [("Payout created but no batch id returned", "warning")])).
Proof.
  intros run. subst run. rewrite route_run.
  unfold route_outcome, redirect_index, flashes.
  repeat case_match; cbn [fst snd session flashed sent draws]; split_and!;
    try done; try lia;
    try (exists []; rewrite app_nil_r; split; [done|cbn; lia]);
    try (eexists [_]; split; [done|cbn; lia]);
    try (eexists [_; _]; rewrite <- app_assoc; split; [done|cbn; lia]);
    try (right; left; split; [done|by eexists]).
  - left. by eexists.
  - right; right. by eexists.
Qed.

Lemma payout_status_run (batch_id : string) (w : world) :
  status_page batch_id w =
    if credentials_given environ (session w) then
      let oauth := oauth_request (client_id_in (session w)) (client_secret_in (session w)) in
      let w1 := World (session w) (flashed w) (sent w ++ [oauth]) (draws w) in
      match token_of_reply utf8_decode json_loads (net oauth) with
      | Raise e => (Ok (Plain (exn_str e) 500), w1)
      | Ok token =>
          let fetch := status_request py_str token (JStr batch_id) in
          let w2 := World (session w) (flashed w) ((sent w ++ [oauth]) ++ [fetch])
                      (draws w) in
          match document_of_reply "Fetch payout status failed" utf8_decode json_loads
                  (net fetch) with
          | Raise e => (Ok (Plain (exn_str e) 500), w2)
          | Ok status =>
              (Ok (Page "status.html"
                     (<["batch_id" := JStr batch_id]> {["status" := status]})), w2)
          end
      end
    else (Ok (Plain "Missing PAYPAL_CLIENT_ID or PAYPAL_CLIENT_SECRET in environment" 500),
          w).
Proof.
  unfold payout_status, io_try, credentials_given.
  cbv [mbind IO_bind mret IO_ret raise lift session_or_environ].
  destruct (missing _ || missing _); cbn [negb]; [reflexivity|].
  rewrite get_access_token_run.
  destruct (token_of_reply _ _ _) as [token|e]; [|reflexivity].
  rewrite get_payout_status_run.
  destruct (document_of_reply _ _ _ _) as [status|e]; reflexivity.
Qed.

(** X13: the /status route always answers, and changes neither the session
    nor the flashed messages, and makes no draw.  Without credentials it
    answers 500 and sends nothing; with them it first exchanges a token and
    then at most fetches the status; any failure is answered with the text
    of the error and 500; and a page is answered only after both requests,
    with the identifier of the URL and the fetched document. *)
Theorem X13_payout_status_route (batch_id : string) (w : world) :
  let run := status_page batch_id w in
  let oauth := oauth_request (client_id_in (session w)) (client_secret_in (session w)) in
  session run.2 = session w ∧ flashed run.2 = flashed w ∧ draws run.2 = draws w
  ∧ (credentials_given environ (session w) = false →
       run.1 = Ok (Plain "Missing PAYPAL_CLIENT_ID or PAYPAL_CLIENT_SECRET in environment"
                         500)
       ∧ sent run.2 = sent w)
  ∧ (credentials_given environ (session w) = true →
       sent run.2 = sent w ++ [oauth]
       ∨ ∃ token, sent run.2 = sent w ++ [oauth; status_request py_str token (JStr batch_id)])
  ∧ ((∃ body, run.1 = Ok (Plain body 500))
     ∨ ∃ token status,
         run.1 = Ok (Page "status.html"
                       (<["batch_id" := JStr batch_id]> {["status" := status]}))
         ∧ sent run.2 = sent w ++ [oauth; status_request py_str token (JStr batch_id)]).
Proof.
  intros run oauth. subst run oauth. rewrite payout_status_run.
  destruct (credentials_given environ (session w)); cbv zeta;
    repeat case_match; cbn [fst snd session flashed sent draws];
    rewrite <- ?app_assoc; split_and!; try done;
    try (intros _; by left); try (intros _; right; by eexists);
    try (left; by eexists).
  right. by eexists _, _.
Qed.

(** X14: credentials typed into the form are kept for later requests,
    whatever becomes of the payout: after a run of the /payout route with a
    non-empty client id and secret in the form, the session holds both, the
    index page reports session credentials, and a later /status request
    exchanges its token with exactly these credentials, the environment
    notwithstanding. *)
Theorem X14_form_credentials_are_kept (form : gmap string string) (w : world)
    (batch_id : string)
    (Hid : Str.nonempty (form_client_id form) = true)
    (Hsecret : Str.nonempty (form_client_secret form) = true) :
  let after := (route form w).2 in
  session after !! "paypal_client_id" = Some (form_client_id form)
  ∧ session after !! "paypal_client_secret" = Some (form_client_secret form)
  ∧ (∃ context, (index environ after).1 = Ok (Render "payout.html" context)
                ∧ context !! "has_session_creds" = Some (JBool true))
  ∧ ∃ more, sent (status_page batch_id after).2
            = sent after
              ++ oauth_request (form_client_id form) (form_client_secret form) :: more.
Proof.
  intros after.
  assert (Hsess : session after
                  = <["paypal_client_secret" := form_client_secret form]>
                      (<["paypal_client_id" := form_client_id form]> (session w))).
  { subst after.
    rewrite route_session.
    unfold session_with_form. fold (form_client_id form) (form_client_secret form).
    by rewrite Hid, Hsecret. }
  assert (Hcid : session after !! "paypal_client_id" = Some (form_client_id form)).
  { rewrite Hsess. by rewrite lookup_insert_ne, lookup_insert_eq. }
  assert (Hsec : session after !! "paypal_client_secret" = Some (form_client_secret form)).
  { rewrite Hsess. by rewrite lookup_insert_eq. }
  split_and!; [done|done| |].
  - eexists. split; [reflexivity|].
    rewrite lookup_insert_ne, lookup_singleton_eq by done.
    unfold has_session_creds. rewrite Hcid, Hsec. cbn [missing]. by rewrite Hid, Hsecret.
  - rewrite payout_status_run.
    unfold credentials_given, session_or_environ_in. rewrite Hcid, Hsec, Hid, Hsecret.
    cbn [missing default from_option id negb orb]. rewrite Hid, Hsecret. cbn [negb orb].
    repeat case_match; cbn [snd sent]; rewrite <- ?app_assoc; by eexists.
Qed.

(** X18: which credentials the /payout route uses.  When the form gives both
    a client id and a secret, these are used.  Otherwise the form's are
    ignored, also when it gives one of the two, and each is looked up on its
    own: in the session when it holds a non-empty value, else in the
    environment.  Whenever a request is sent, the first is the token exchange
    with the credentials found this way. *)
Theorem X18_route_credential_resolution (form : gmap string string) (w : world) :
  let run := route form w in
  let both :=
    Str.nonempty (form_client_id form) && Str.nonempty (form_client_secret form) in
  let pick (given key name : string) :=
    if both then given
    else match session w !! key with
         | Some v => if Str.nonempty v then v else default "" (environ !! name)
         | None => default "" (environ !! name)
         end in
  sent run.2 = sent w
  ∨ ∃ more,
      sent run.2
      = sent w
        ++ oauth_request (pick (form_client_id form) "paypal_client_id" "PAYPAL_CLIENT_ID")
             (pick (form_client_secret form) "paypal_client_secret" "PAYPAL_CLIENT_SECRET")
           :: more.
Proof.
  intros run both pick. subst run.
  assert (Hid : client_id_in (session_with_form form (session w))
                = pick (form_client_id form) "paypal_client_id" "PAYPAL_CLIENT_ID").
  { subst pick both. unfold session_with_form, session_or_environ_in,
      form_client_id, form_client_secret.
    destruct (Str.nonempty (form_get form "client_id" "")) eqn:Hi;
      destruct (Str.nonempty (form_get form "client_secret" "")) eqn:Hs;
      cbn [andb]; try by repeat case_match.
    rewrite lookup_insert_ne, lookup_insert_eq by done. by rewrite Hi. }
  assert (Hsec : client_secret_in (session_with_form form (session w))
                 = pick (form_client_secret form) "paypal_client_secret"
                     "PAYPAL_CLIENT_SECRET").
  { subst pick both. unfold session_with_form, session_or_environ_in,
      form_client_id, form_client_secret.
    destruct (Str.nonempty (form_get form "client_id" "")) eqn:Hi;
      destruct (Str.nonempty (form_get form "client_secret" "")) eqn:Hs;
      cbn [andb]; try by repeat case_match.
    rewrite lookup_insert_eq. by rewrite Hs. }
  rewrite route_run. unfold route_outcome. cbv zeta. rewrite Hid, Hsec.
  repeat case_match; cbn [snd sent flashes]; rewrite <- ?app_assoc;
    first [by left | right; by eexists].
Qed.




End PageProperties.

(** A provider that grants a token and accepts a payout, and a form as the
    end-to-end scenario has it. *)
Definition sample_form : gmap string string :=
  <["client_id" := "id"]> (<["client_secret" := "secret"]>
    (<["email" := "a@b.com"]> {["amounts" := "5.00,10.00"]})).

Definition sample_net (r : request) : reply :=
  if String.eqb (req_url r) OAUTH_URL then Reply 200 "OK" "token"
  else Reply 202 "Accepted" "batch".

Definition sample_loads (text : string) : result json :=
  if String.eqb text "token" then Ok (JDict {["access_token" := JStr "A21AA"]})
  else Ok (JDict {["batch_header" := JDict {["payout_batch_id" := JStr "B1"]}]}).

Definition sample_dumps (indent : option Z) (v : json) : string := "{}".
Definition sample_str (v : json) : string := "".
Definition sample_urandom (n : nat) : Z := Z.of_nat n.


Lemma X14_form_credentials_are_kept_witness :
  session (create_payout_route sample_net sample_urandom Ok sample_loads sample_dumps
             sample_str id ∅ sample_form world0).2 !! "paypal_client_id"
  = Some "id".
Proof.
  destruct (X14_form_credentials_are_kept sample_net sample_urandom Ok sample_loads
              sample_dumps sample_str id ∅ sample_form world0 "B1") as [Hid _].
  - reflexivity.
  - reflexivity.
  - exact Hid.
Defined.


(** ** [main] *)

Definition main_missing : string :=
  "Missing PAYPAL_CLIENT_ID or PAYPAL_CLIENT_SECRET environment variables".

Definition status_heading : string := String Str.nl "Current payout batch status:".

Section MainProperties.

Variable net : request → reply.
Variable urandom : nat → Z.
Variable utf8_decode : string → result string.
Variable json_loads : string → result json.
Variable json_dumps : option Z → json → string.
Variable py_str : json → string.
Variable environ : gmap string string.

Local Abbreviation run_main :=
  (main net urandom utf8_decode json_loads json_dumps py_str environ).
Local Abbreviation CLIENT_ID := (default "" (environ !! "PAYPAL_CLIENT_ID")).
Local Abbreviation CLIENT_SECRET := (default "" (environ !! "PAYPAL_CLIENT_SECRET")).

(** A run of [main], case by case. *)
Definition main_outcome (p : process) : result Z * process :=
  let w := proc_world p in
  let body := main_payout_body (urandom (draws w)) in
  let fails (sent' : list request) (draws' : nat) (out : list string) (e : exn) :=
    (Ok 1, Process (World (session w) (flashed w) sent' draws') out
                   (stderr p ++ [exn_str e])) in
  if missing (environ !! "PAYPAL_CLIENT_ID") || missing (environ !! "PAYPAL_CLIENT_SECRET")
  then fails (sent w) (S (draws w)) (stdout p) (RuntimeError main_missing)
  else
    let oauth := oauth_request CLIENT_ID CLIENT_SECRET in
    match token_of_reply utf8_decode json_loads (net oauth) with
    | Raise e => fails (sent w ++ [oauth]) (S (draws w)) (stdout p) e
    | Ok token =>
        let submit :=
          payout_request json_dumps py_str token body true
            ("req-" +:+ Uuid.hex (Uuid.uuid4 (urandom (S (draws w))))) in
        let sent2 := (sent w ++ [oauth]) ++ [submit] in
        match document_of_reply "PayPal payout failed" utf8_decode json_loads
                (net submit) with
        | Raise e => fails sent2 (S (S (draws w))) (stdout p) e
        | Ok document =>
            let out := stdout p ++ [json_dumps (Some 2) document] in
            match _extract_batch_id document with
            | Raise e => fails sent2 (S (S (draws w))) out e
            | Ok batch_id =>
                if Py.truthy batch_id then
                  let fetch := status_request py_str token batch_id in
                  match document_of_reply "Fetch payout status failed" utf8_decode
                          json_loads (net fetch) with
                  | Raise e => fails (sent2 ++ [fetch]) (S (S (draws w))) out e
                  | Ok status =>
                      (Ok 0,
                       Process (World (session w) (flashed w) (sent2 ++ [fetch])
                                      (S (S (draws w))))
                               ((out ++ [status_heading])
                                ++ [json_dumps (Some 2) status])
                               (stderr p))
                  end
                else
                  (Ok 0,
                   Process (World (session w) (flashed w) sent2 (S (S (draws w))))
                           out (stderr p))
            end
        end
    end.

Lemma main_run (p : process) : run_main p = main_outcome p.
Proof.
  unfold main, main_outcome, cli_try, run_io, draw, print, eprint, main_missing,
    status_heading.
  cbv [mbind CLI_bind mret CLI_ret raise lift].
  cbn [proc_world stdout stderr session flashed sent draws].
  destruct (missing _ || missing _); [reflexivity|].
  rewrite get_access_token_run.
  destruct (token_of_reply _ _ _) as [token|e]; [|reflexivity].
  cbn [proc_world stdout stderr].
  rewrite create_payout_run. cbn [request_id_of draws_request_id draws sent].
  destruct (document_of_reply _ _ _ _) as [document|e]; [|reflexivity].
  cbn [proc_world stdout stderr].
  destruct (_extract_batch_id document) as [batch_id|e]; [|reflexivity].
  destruct (Py.truthy batch_id); [|reflexivity].
  cbn [proc_world stdout stderr].
  rewrite get_payout_status_run.
  destruct (document_of_reply _ _ _ _) as [status|e]; reflexivity.
Qed.

(** X16: main always ends with exit status 0 or 1 and never touches the
    session: with status 0 nothing is written to the error stream, with
    status 1 exactly one line is.  Without both credentials in the
    environment it ends with status 1 and the "Missing ..." line, prints
    nothing and sends nothing.  It prints at most three lines, and three
    only when it ends with status 0. *)
Theorem X16_main_exit_status (p : process) :
  let run := run_main p in
  session (proc_world run.2) = session (proc_world p)
  ∧ flashed (proc_world run.2) = flashed (proc_world p)
  ∧ ((run.1 = Ok 0 ∧ stderr run.2 = stderr p)
     ∨ (run.1 = Ok 1 ∧ ∃ message, stderr run.2 = stderr p ++ [message]))
  ∧ (missing (environ !! "PAYPAL_CLIENT_ID")
     || missing (environ !! "PAYPAL_CLIENT_SECRET") = true →
       run.1 = Ok 1 ∧ stderr run.2 = stderr p ++ [main_missing]
       ∧ stdout run.2 = stdout p
       ∧ sent (proc_world run.2) = sent (proc_world p))
  ∧ (∃ out, stdout run.2 = stdout p ++ out
            ∧ (length out = 0%nat ∨ length out = 1%nat
               ∨ (length out = 3%nat ∧ run.1 = Ok 0))).
Proof.
  intros run. subst run. rewrite main_run. unfold main_outcome. cbv zeta.
  destruct (missing _ || missing _) eqn:Hmissing.
  - cbn [fst snd proc_world session flashed sent stdout stderr]. split_and!; try done.
    + right. split; [done|]. by eexists.
    + exists []. rewrite app_nil_r. split; [done|by left].
  - repeat case_match; cbn [fst snd proc_world session flashed sent stdout stderr];
      split_and!; try done;
      try (right; split; [done|]; by eexists);
      try (left; by split);
      try (exists []; rewrite app_nil_r; split; [done|by left]);
      try (eexists [_]; split; [done|right; by left]).
    eexists [_; _; _]. rewrite <- !app_assoc. split; [done|]. right; right. by split.
Qed.


End MainProperties.

